(** * telegram-ledget: the transaction pipeline of [main.py]

    A shallow embedding of [process_and_log_transaction] and of the HTTP
    front end [api_process_transaction], with the properties of the
    pipeline that the specification states.

    Modelling conventions.
    - A Python [str] is a Rocq [string], one [ascii] per character; this
      covers the texts whose code points are below 256.
    - A Python [dict] with string keys is a [gmap string pyval]; the
      equality of Python dicts ignores the insertion order, as the
      equality of [gmap] does.
    - The two external services (the model client and the worksheet) are
      the values of the module globals [GeminiClient] and [sheet]: [None]
      when the initialisation at import time failed, a handle otherwise.
      A handle answers a call with a result or with an exception.
    - Calls to the services are recorded in a trace; a function of the
      program is a computation of the monad [M] which threads the trace
      and propagates exceptions as Python's [try]/[except] does.
    - [print] statements are left out. *)

From Stdlib Require Import ZArith Ascii String List Lia Bool.
From stdpp Require Import base option gmap strings list fin_maps.

#[local] Set Warnings "-register-all".
Local Open Scope string_scope.
Local Open Scope Z_scope.

(** ** Python values *)

(** The values [json.loads] produces, and which the program stores in
    dicts and rows. A float keeps the text of its literal. *)
Inductive pyval : Type :=
| PNone
| PBool (b : bool)
| PInt (n : Z)
| PFloat (literal : string)
| PStr (s : string)
| PList (l : list pyval)
| PDict (d : gmap string pyval).

(** Exceptions: [json.JSONDecodeError] is the one class the program
    tells apart; every other subclass of [Exception] is [PyException].
    The argument is [str(e)]. *)
Inductive exception : Type :=
| JSONDecodeError (msg : string)
| PyException (msg : string).

Definition str_exc (e : exception) : string :=
  match e with
  | JSONDecodeError msg => msg
  | PyException msg => msg
  end.

Definition isinstance_JSONDecodeError (e : exception) : bool :=
  match e with
  | JSONDecodeError _ => true
  | PyException _ => false
  end.

Definition isinstance_Exception (e : exception) : bool := true.

(** ** String operations of Python used by the program *)

Module Py.

(** [str.isspace] on one character, for code points below 256. *)
Definition isspace (c : ascii) : bool :=
  let n := Z.of_nat (nat_of_ascii c) in
  ((9 <=? n) && (n <=? 13)) || ((28 <=? n) && (n <=? 32))
  || (n =? 133) || (n =? 160).

Fixpoint lstrip (s : string) : string :=
  match s with
  | String c s' => if isspace c then lstrip s' else s
  | EmptyString => EmptyString
  end.

(** [rstrip]: a character is dropped when it is whitespace and all
    that follows it has been dropped. *)
Fixpoint rstrip (s : string) : string :=
  match s with
  | String c s' =>
      match rstrip s' with
      | EmptyString => if isspace c then EmptyString else String c EmptyString
      | r => String c r
      end
  | EmptyString => EmptyString
  end.

(** [s.strip()] *)
Definition strip (s : string) : string := rstrip (lstrip s).

Definition len (s : string) : Z := Z.of_nat (String.length s).

(** [s.find(c)] for a one-character [c]: the lowest index of [c], or
    [-1]. [find_from c s i] searches [s], whose first character has
    index [i]. *)
Fixpoint find_from (c : ascii) (s : string) (i : Z) : Z :=
  match s with
  | String a s' => if Ascii.eqb a c then i else find_from c s' (i + 1)
  | EmptyString => -1
  end.

Definition find (c : ascii) (s : string) : Z := find_from c s 0.

(** [s.rfind(c)]: the highest index of [c], or [-1]. *)
Fixpoint rfind_from (c : ascii) (s : string) (i : Z) : Z :=
  match s with
  | String a s' =>
      let r := rfind_from c s' (i + 1) in
      if r =? -1 then (if Ascii.eqb a c then i else -1) else r
  | EmptyString => -1
  end.

Definition rfind (c : ascii) (s : string) : Z := rfind_from c s 0.

(** A slice bound as Python adjusts it: a negative bound counts from the
    end, and the result is clamped to [0, len]. *)
Definition slice_bound (n i : Z) : Z :=
  if i <? 0 then Z.max 0 (i + n) else Z.min i n.

(** [c in s] for a one-character [c]. *)
Fixpoint contains (c : ascii) (s : string) : bool :=
  match s with
  | String a s' => Ascii.eqb a c || contains c s'
  | EmptyString => false
  end.

(** The test [json_start != -1 and json_end != -1 and json_start <
    json_end] on a text. *)
Definition span_test (s : string) : bool :=
  negb (find "{" s =? -1) && negb (rfind "}" s =? -1)
  && (find "{" s <? rfind "}" s).

(** [s[i:j]] *)
Definition slice (s : string) (i j : Z) : string :=
  let a := slice_bound (len s) i in
  let b := slice_bound (len s) j in
  substring (Z.to_nat a) (Z.to_nat (b - a)) s.

End Py.

(** ** The JSON decoder

    [json.loads] belongs to Python's standard library. The pipeline below
    takes the decoder as a parameter, and the general theorems hold for
    every decoder. [Json.loads] is a stand-in for the grammar [json.loads]
    accepts, used to run the pipeline on concrete texts. It departs from
    [json.loads] in these points: it fails with [JSONDecodeError] only,
    with one fixed message (Python's carries a position); it has no limit
    on the digits of an integer nor on the depth of nesting, where Python
    raises [ValueError] and [RecursionError]; it reports as a decode error
    a [\u] escape of a code point above 255, which no [string] holds; a
    float keeps the text of its literal. *)

Module Json.

Definition is_ws (c : ascii) : bool :=
  let n := nat_of_ascii c in
  (n =? 32)%nat || (n =? 9)%nat || (n =? 10)%nat || (n =? 13)%nat.

Fixpoint skip_ws (s : string) : string :=
  match s with
  | String c s' => if is_ws c then skip_ws s' else s
  | EmptyString => EmptyString
  end.

Definition digit_val (c : ascii) : option Z :=
  let n := Z.of_nat (nat_of_ascii c) in
  if (48 <=? n) && (n <=? 57) then Some (n - 48) else None.

Definition hex_val (c : ascii) : option Z :=
  let n := Z.of_nat (nat_of_ascii c) in
  if (48 <=? n) && (n <=? 57) then Some (n - 48)
  else if (65 <=? n) && (n <=? 70) then Some (n - 55)
  else if (97 <=? n) && (n <=? 102) then Some (n - 87)
  else None.

(** The longest prefix of digits, and the rest. *)
Fixpoint span_digits (s : string) : string * string :=
  match s with
  | String c s' =>
      match digit_val c with
      | Some _ => let '(ds, r) := span_digits s' in (String c ds, r)
      | None => (EmptyString, s)
      end
  | EmptyString => (EmptyString, EmptyString)
  end.

Fixpoint int_of_digits (acc : Z) (s : string) : Z :=
  match s with
  | String c s' => int_of_digits (10 * acc + default 0 (digit_val c)) s'
  | EmptyString => acc
  end.

(** The integer part of a number: [0] or a digit from 1 to 9 followed
    by digits. *)
Definition scan_int_digits (s : string) : option (string * string) :=
  match s with
  | String "0" r => Some ("0", r)
  | String c _ =>
      match digit_val c with
      | Some _ => Some (span_digits s)
      | None => None
      end
  | EmptyString => None
  end.

Definition scan_frac (s : string) : string * string :=
  match s with
  | String "." r =>
      match span_digits r with
      | (EmptyString, _) => (EmptyString, s)
      | (ds, r') => (String "." ds, r')
      end
  | _ => (EmptyString, s)
  end.

Definition scan_exp (s : string) : string * string :=
  match s with
  | String e r =>
      if Ascii.eqb e "e" || Ascii.eqb e "E" then
        let '(sign, r1) :=
          match r with
          | String "+" r1 => ("+", r1)
          | String "-" r1 => ("-", r1)
          | _ => (EmptyString, r)
          end in
        match span_digits r1 with
        | (EmptyString, _) => (EmptyString, s)
        | (ds, r') => (String e (sign +:+ ds), r')
        end
      else (EmptyString, s)
  | EmptyString => (EmptyString, s)
  end.

(** A number: an [int] when it has neither fraction nor exponent. *)
Definition scan_number (s : string) : option (pyval * string) :=
  let '(neg, s1) :=
    match s with
    | String "-" r => (true, r)
    | _ => (false, s)
    end in
  match scan_int_digits s1 with
  | None => None
  | Some (ds, r) =>
      let '(frac, r1) := scan_frac r in
      let '(ex, r2) := scan_exp r1 in
      match frac, ex with
      | EmptyString, EmptyString =>
          let n := int_of_digits 0 ds in
          Some (PInt (if neg then - n else n), r2)
      | _, _ =>
          Some (PFloat ((if neg then "-" else "") +:+ ds +:+ frac +:+ ex), r2)
      end
  end.

(** [strip_prefix p s]: what follows [p] in [s], when [s] starts with
    [p]. *)
Fixpoint strip_prefix (p s : string) : option string :=
  match p, s with
  | EmptyString, _ => Some s
  | String a p', String b s' =>
      if Ascii.eqb a b then strip_prefix p' s' else None
  | String _ _, EmptyString => None
  end.

Definition char (n : Z) : ascii := ascii_of_nat (Z.to_nat n).

(** The body of a string literal, after the opening quote: the decoded
    characters up to the closing quote, and the rest. Control characters
    are refused (strict mode). *)
Fixpoint scanstring (s : string) : option (string * string) :=
  match s with
  | EmptyString => None
  | String c r =>
      if Ascii.eqb c (char 34) then Some (EmptyString, r)
      else if Ascii.eqb c (char 92) then
        match r with
        | String e r1 =>
            let simple (x : ascii) :=
              match scanstring r1 with
              | Some (t, r') => Some (String x t, r')
              | None => None
              end in
            if Ascii.eqb e (char 34) then simple (char 34)
            else if Ascii.eqb e (char 92) then simple (char 92)
            else if Ascii.eqb e "/" then simple "/"%char
            else if Ascii.eqb e "b" then simple (char 8)
            else if Ascii.eqb e "f" then simple (char 12)
            else if Ascii.eqb e "n" then simple (char 10)
            else if Ascii.eqb e "r" then simple (char 13)
            else if Ascii.eqb e "t" then simple (char 9)
            else if Ascii.eqb e "u" then
              match r1 with
              | String h1 (String h2 (String h3 (String h4 r2))) =>
                  match hex_val h1, hex_val h2, hex_val h3, hex_val h4 with
                  | Some a, Some b, Some c', Some d =>
                      let cp := 4096 * a + 256 * b + 16 * c' + d in
                      if cp <? 256 then
                        match scanstring r2 with
                        | Some (t, r') => Some (String (char cp) t, r')
                        | None => None
                        end
                      else None
                  | _, _, _, _ => None
                  end
              | _ => None
              end
            else None
        | EmptyString => None
        end
      else if (Z.of_nat (nat_of_ascii c) <? 32) then None
      else
        match scanstring r with
        | Some (t, r') => Some (String c t, r')
        | None => None
        end
  end.

Definition quote : ascii := char 34.

(** [scan_once]: one JSON value at the start of [s], and the rest.
    [scan_members] reads the members of an object from the first key
    on, inserting them in turn, so that the last of two equal keys
    stays; [scan_elements] reads the elements of an array. Each nested
    call follows at least one consumed character, so a fuel above the
    length of the text is never used up. *)
Fixpoint scan_once (fuel : nat) (s : string) : option (pyval * string) :=
  match fuel with
  | O => None
  | S fuel' =>
      match s with
      | EmptyString => None
      | String c r =>
          if Ascii.eqb c quote then
            match scanstring r with
            | Some (t, r') => Some (PStr t, r')
            | None => None
            end
          else if Ascii.eqb c "{" then
            match skip_ws r with
            | String "}" r2 => Some (PDict ∅, r2)
            | r1 =>
                match scan_members fuel' ∅ r1 with
                | Some (d, r2) => Some (PDict d, r2)
                | None => None
                end
            end
          else if Ascii.eqb c "[" then
            match skip_ws r with
            | String "]" r2 => Some (PList [], r2)
            | r1 =>
                match scan_elements fuel' r1 with
                | Some (l, r2) => Some (PList l, r2)
                | None => None
                end
            end
          else
            match strip_prefix "null" s, strip_prefix "true" s,
                  strip_prefix "false" s with
            | Some r', _, _ => Some (PNone, r')
            | _, Some r', _ => Some (PBool true, r')
            | _, _, Some r' => Some (PBool false, r')
            | None, None, None =>
                match scan_number s with
                | Some res => Some res
                | None =>
                    match strip_prefix "NaN" s, strip_prefix "Infinity" s,
                          strip_prefix "-Infinity" s with
                    | Some r', _, _ => Some (PFloat "NaN", r')
                    | _, Some r', _ => Some (PFloat "Infinity", r')
                    | _, _, Some r' => Some (PFloat "-Infinity", r')
                    | None, None, None => None
                    end
                end
            end
      end
  end
with scan_members (fuel : nat) (acc : gmap string pyval) (s : string)
  : option (gmap string pyval * string) :=
  match fuel with
  | O => None
  | S fuel' =>
      match s with
      | EmptyString => None
      | String c r =>
          if Ascii.eqb c quote then
            match scanstring r with
            | Some (key, r1) =>
                match skip_ws r1 with
                | String ":" r2 =>
                    match scan_once fuel' (skip_ws r2) with
                    | Some (v, r3) =>
                        let acc' := <[key := v]> acc in
                        match skip_ws r3 with
                        | String "}" r4 => Some (acc', r4)
                        | String "," r4 =>
                            scan_members fuel' acc' (skip_ws r4)
                        | _ => None
                        end
                    | None => None
                    end
                | _ => None
                end
            | None => None
            end
          else None
      end
  end
with scan_elements (fuel : nat) (s : string)
  : option (list pyval * string) :=
  match fuel with
  | O => None
  | S fuel' =>
      match scan_once fuel' s with
      | Some (v, r1) =>
          match skip_ws r1 with
          | String "]" r2 => Some ([v], r2)
          | String "," r2 =>
              match scan_elements fuel' (skip_ws r2) with
              | Some (l, r3) => Some (v :: l, r3)
              | None => None
              end
          | _ => None
          end
      | None => None
      end
  end.

(** The whole text is one value between optional whitespace. *)
Definition decode (s : string) : option pyval :=
  match scan_once (S (String.length s)) (skip_ws s) with
  | Some (v, r) =>
      match skip_ws r with
      | EmptyString => Some v
      | String _ _ => None
      end
  | None => None
  end.

Definition loads (s : string) : exception + pyval :=
  match decode s with
  | Some v => inr v
  | None => inl (JSONDecodeError "invalid JSON document")
  end.

End Json.

(** ** Effects: the trace of external calls and exceptions *)

Abbreviation bytes := (list Byte.byte).

(** One external call: the request sent to the model service, or the row
    handed to the worksheet. *)
Inductive event : Type :=
| GenerateContent (model : string) (data : bytes) (mime_type : string)
    (prompt : string)
| AppendRow (row : list pyval).

(** A computation reads the trace so far and gives a value or an
    exception, and the extended trace. *)
Definition M (A : Type) : Type := list event → (exception + A) * list event.

Definition ret {A} (a : A) : M A := λ tr, (inr a, tr).

Definition bind {A B} (k : A → M B) (m : M A) : M B :=
  λ tr,
    match m tr with
    | (inr a, tr') => k a tr'
    | (inl e, tr') => (inl e, tr')
    end.

(** [x ← m; k] and [m;; k] are stdpp's notations for [bind]. *)
#[global] Instance M_ret : MRet M := @ret.
#[global] Instance M_bind : MBind M := @bind.

Definition raise {A} (e : exception) : M A := λ tr, (inl e, tr).

(** A step without external call which returns or raises. *)
Definition lift_result {A} (r : exception + A) : M A := λ tr, (r, tr).

(** [try: m  except C as e: h e], where [catches] is membership in the
    class [C]; an exception outside the class propagates. *)
Definition try_except {A} (m : M A) (catches : exception → bool)
    (h : exception → M A) : M A :=
  λ tr,
    match m tr with
    | (inr a, tr') => (inr a, tr')
    | (inl e, tr') => if catches e then h e tr' else (inl e, tr')
    end.

(** Record the call, then give its outcome. *)
Definition call {A} (ev : event) (outcome : exception + A) : M A :=
  λ tr, (outcome, (tr ++ [ev])%list).

(** ** The external services *)

(** The model client: [models.generate_content(model=, contents=[part,
    prompt])] answers with a response, of which the program reads only
    [.text] (a [str], or [None] when the response has no text part), or
    raises. *)
Record Client : Type := {
  generate_content :
    string → bytes → string → string → exception + option string
}.

(** The worksheet: [append_row(row)] returns or raises. *)
Record Worksheet : Type := {
  append_row : list pyval → exception + unit
}.

(** ** Requests of the HTTP front end *)

(** An uploaded file: its name, and what [read()] gives. *)
Record FileStorage : Type := {
  filename : string;
  read : exception + bytes
}.

(** [request.files] and [request.form], with the first value of a
    field. *)
Record Request : Type := {
  files : gmap string FileStorage;
  form : gmap string string
}.

(** ** Dict and attribute operations *)

(** [d.get(k, dflt)] *)
Definition dict_get (d : gmap string pyval) (k : string) (dflt : pyval)
    : pyval :=
  default dflt (d !! k).

(** [v[k] = x] for a string key [k]: defined on a dict only; item
    assignment on another value raises [TypeError]. *)
Definition setitem (v : pyval) (k : string) (x : pyval)
    : M (gmap string pyval) :=
  match v with
  | PDict d => ret (<[k := x]> d)
  | PList _ =>
      raise (PyException "list indices must be integers or slices, not str")
  | PStr _ => raise (PyException "'str' object does not support item assignment")
  | PInt _ => raise (PyException "'int' object does not support item assignment")
  | PFloat _ =>
      raise (PyException "'float' object does not support item assignment")
  | PBool _ =>
      raise (PyException "'bool' object does not support item assignment")
  | PNone =>
      raise (PyException "'NoneType' object does not support item assignment")
  end.

(** The receiver of [.strip()] in [response.text.strip()]: [None] has no
    such attribute, and the call raises [AttributeError]. *)
Definition strip_receiver (text : option string) : M string :=
  match text with
  | Some s => ret s
  | None => raise (PyException "'NoneType' object has no attribute 'strip'")
  end.

(** ** The prompt *)

Definition nl : string := String (Json.char 10) EmptyString.
Definition dq : string := String Json.quote EmptyString.

Definition prompt_field (key descr : string) : string :=
  "        " +:+ dq +:+ key +:+ dq +:+ ": " +:+ dq +:+ descr +:+ dq.

Definition fixed_prompt : string :=
  "Extract the total amount, date, and platform from this transaction image. If available, also extract items purchased and the vendor name." +:+ nl +:+
  "    Return the output in the following format:" +:+ nl +:+
  "    ```json" +:+ nl +:+
  "    {{" +:+ nl +:+
  prompt_field "Amount" "Total amount" +:+ "," +:+ nl +:+
  prompt_field "Date" "Date of transaction" +:+ "," +:+ nl +:+
  prompt_field "Platform" "Platform used" +:+ "," +:+ nl +:+
  prompt_field "Items" "Items purchased" +:+ "," +:+ nl +:+
  prompt_field "Vendor" "Vendor name" +:+ nl +:+
  "    }}" +:+ nl +:+
  "    ```".

(** ** The pipeline *)

(** The dict literals the pipeline returns on failure. *)
Definition error_payload (error : string) : pyval :=
  PDict {[ "error" := PStr error ]}.

Definition error_details_payload (error : string) (details : pyval) : pyval :=
  PDict (<[ "error" := PStr error ]> {[ "details" := details ]}).

(** [{"error": "Could not find JSON in Gemini response",
      "raw_response": response.text}] *)
Definition no_json_payload (response_text : string) : pyval :=
  PDict (<[ "error" := PStr "Could not find JSON in Gemini response" ]>
         {[ "raw_response" := PStr response_text ]}).

(** [{"error": "Failed to parse Gemini JSON response", "details": str(e),
      "raw_response": response.text}] *)
Definition malformed_json_payload (e : exception) (response_text : string)
    : pyval :=
  PDict (<[ "error" := PStr "Failed to parse Gemini JSON response" ]>
         (<[ "details" := PStr (str_exc e) ]>
          {[ "raw_response" := PStr response_text ]})).

(** [{"error": "Gemini API request failed", "details": str(e)}] *)
Definition request_failed_payload (e : exception) : pyval :=
  error_details_payload "Gemini API request failed" (PStr (str_exc e)).

(** The list handed to [sheet.append_row]. *)
Definition ledger_row (structured_analysis : gmap string pyval)
    (user_note response_text : string) : list pyval :=
  [ dict_get structured_analysis "Amount" (PStr "");
    dict_get structured_analysis "Date" (PStr "");
    dict_get structured_analysis "Platform" (PStr "");
    dict_get structured_analysis "Items" (PStr "");
    dict_get structured_analysis "Vendor" (PStr "");
    PStr user_note;
    PStr response_text ].

(** The request of one run: the model name, the image as JPEG, and the
    prompt. *)
Definition generate_event (image_data : bytes) : event :=
  GenerateContent "gemini-2.0-flash" image_data "image/jpeg" fixed_prompt.

Definition generate (client : Client) (image_data : bytes)
    : exception + option string :=
  generate_content client "gemini-2.0-flash" image_data "image/jpeg"
    fixed_prompt.

(** The text given to [json.loads]: the stripped response from its first
    opening brace to its last closing brace, when the test on
    [json_start] and [json_end] passes. *)
Definition json_candidate (response_text : string) : option string :=
  let cleaned_pre_analysis_text := Py.strip response_text in
  let json_start := Py.find "{" cleaned_pre_analysis_text in
  let json_end := Py.rfind "}" cleaned_pre_analysis_text in
  if negb (json_start =? -1) && negb (json_end =? -1)
     && (json_start <? json_end)
  then Some (Py.slice cleaned_pre_analysis_text json_start (json_end + 1))
  else None.

Section Pipeline.

(** [json.loads] *)
Variable json_loads : string → exception + pyval.

(** The module globals set at import time. *)
Variable GeminiClient : option Client.
Variable sheet : option Worksheet.

(** The body of the inner [try]: decode, set the note, append the row,
    return the dict. *)
Definition decode_and_log (sh : Worksheet) (json_str : string)
    (user_note : string) (response_text : string) : M (pyval * bool) :=
  loaded ← lift_result (json_loads json_str);
  structured_analysis ← setitem loaded "Note" (PStr user_note);
  call (AppendRow (ledger_row structured_analysis user_note response_text))
       (append_row sh
          (ledger_row structured_analysis user_note response_text));;
  ret (PDict structured_analysis, true).

Definition process_and_log_transaction (image_data : bytes)
    (user_note : string) : M (pyval * bool) :=
  match GeminiClient with
  | None => ret (error_payload "Gemini client not initialized", false)
  | Some client =>
  match sheet with
  | None => ret (error_payload "Google Sheets client not initialized", false)
  | Some sh =>
      try_except
        (response ←
           call (generate_event image_data) (generate client image_data);
         response_text ← strip_receiver response;
         match json_candidate response_text with
         | Some json_str =>
             try_except
               (decode_and_log sh json_str user_note response_text)
               isinstance_JSONDecodeError
               (λ e, ret (malformed_json_payload e response_text, false))
         | None => ret (no_json_payload response_text, false)
         end)
        isinstance_Exception
        (λ e, ret (request_failed_payload e, false))
  end
  end.

(** The HTTP front end: the value given to [jsonify] and the status. *)
Definition api_process_transaction (request : Request) : M (pyval * Z) :=
  match files request !! "image" with
  | None => ret (error_payload "No image file provided", 400)
  | Some image_file =>
  match form request !! "note" with
  | None => ret (error_payload "No note provided", 400)
  | Some user_note =>
      if String.eqb (filename image_file) "" then
        ret (error_payload "No selected file", 400)
      else
        match read image_file with
        | inl e =>
            ret (error_details_payload "Could not read image file"
                   (PStr (str_exc e)), 400)
        | inr image_bytes =>
            res ← process_and_log_transaction image_bytes user_note;
            let '(processed_data, success) := res in
            if success : bool then
              ret (PDict (<[ "message" :=
                               PStr "Transaction processed successfully" ]>
                          {[ "data" := processed_data ]}), 200)
            else
              ret (error_details_payload "Failed to process transaction"
                     processed_data, 500)
        end
  end
  end.

End Pipeline.

(** ** The Telegram front end *)

(** What the handler reads of an update. A photo size gives a file handle
    or raises; a file handle gives its content or raises;
    [message.reply_text(text)] returns or raises. *)
Record File : Type := {
  download_as_bytearray : exception + bytes
}.

Record PhotoSize : Type := {
  get_file : exception + File
}.

Record Message : Type := {
  photo : list PhotoSize;
  caption : option string;
  reply_text : string → exception + unit
}.

Record Update : Type := {
  message : option Message
}.

(** The module global [bot]: [None] without a token. *)
Inductive Bot : Type := TelegramBot (token : string).

(** The handler acts on the trace of service calls and on the texts it
    hands to [reply_text], in order. *)
Record world : Type := {
  calls : list event;
  replies : list string
}.

Definition T (A : Type) : Type := world → (exception + A) * world.

Definition tret {A} (a : A) : T A := λ w, (inr a, w).

Definition tbind {A B} (k : A → T B) (m : T A) : T B :=
  λ w,
    match m w with
    | (inr a, w') => k a w'
    | (inl e, w') => (inl e, w')
    end.

#[global] Instance T_ret : MRet T := @tret.
#[global] Instance T_bind : MBind T := @tbind.

(** A step of the handler which returns or raises without a call. *)
Definition tlift {A} (r : exception + A) : T A := λ w, (r, w).

(** A computation of the pipeline, run on the trace of calls. *)
Definition run_pipeline {A} (m : M A) : T A :=
  λ w,
    match m (calls w) with
    | (r, tr') => (r, {| calls := tr'; replies := replies w |})
    end.

(** [update.message.attr]: [None] has no attribute. *)
Definition message_attr (update : Update) (attr : string)
    : exception + Message :=
  match message update with
  | Some msg => inr msg
  | None =>
      inl (PyException
             ("'NoneType' object has no attribute '" +:+ attr +:+ "'"))
  end.

(** [update.message.reply_text(text)] *)
Definition reply (update : Update) (text : string) : T () :=
  match message_attr update "reply_text" with
  | inr msg =>
      λ w, (reply_text msg text,
            {| calls := calls w; replies := (replies w ++ [text])%list |})
  | inl e => tlift (inl e)
  end.

(** The body of the [try] of the handler:
    [bytes(update.message.photo[-1].get_file().download_as_bytearray())];
    [photo[-1]] raises [IndexError] on the empty list. *)
Definition download_image (update : Update) : exception + bytes :=
  match message_attr update "photo" with
  | inl e => inl e
  | inr msg =>
      match last (photo msg) with
      | None => inl (PyException "list index out of range")
      | Some largest =>
          match get_file largest with
          | inl e => inl e
          | inr photo_file => download_as_bytearray photo_file
          end
      end
  end.

(** A float literal denotes zero when the digits before its exponent are
    all [0]; the underflow of a tiny literal to zero is not modelled. *)
Fixpoint float_literal_is_zero (literal : string) : bool :=
  match literal with
  | EmptyString => true
  | String c r =>
      if Ascii.eqb c "e" || Ascii.eqb c "E" then true
      else if Ascii.eqb c "0" || Ascii.eqb c "-" || Ascii.eqb c "."
      then float_literal_is_zero r
      else false
  end.

(** The truth value of a Python value, as [if v] and [a and b] test it. *)
Definition py_truthy (v : pyval) : bool :=
  match v with
  | PNone => false
  | PBool b => b
  | PInt n => negb (n =? 0)
  | PFloat literal => negb (float_literal_is_zero literal)
  | PStr s => negb (String.eqb s "")
  | PList l => match l with [] => false | _ => true end
  | PDict d => negb (bool_decide (d = ∅))
  end.

(** [v.get(k, dflt)]: a method of dicts only. *)
Definition obj_get (v : pyval) (k : string) (dflt : pyval)
    : exception + pyval :=
  match v with
  | PDict d => inr (dict_get d k dflt)
  | PList _ => inl (PyException "'list' object has no attribute 'get'")
  | PStr _ => inl (PyException "'str' object has no attribute 'get'")
  | PInt _ => inl (PyException "'int' object has no attribute 'get'")
  | PFloat _ => inl (PyException "'float' object has no attribute 'get'")
  | PBool _ => inl (PyException "'bool' object has no attribute 'get'")
  | PNone => inl (PyException "'NoneType' object has no attribute 'get'")
  end.

(** [update.message.caption if update.message.caption else "Sent via
    Telegram"]: the empty caption counts as none. *)
Definition caption_or_default (msg : Message) : string :=
  match caption msg with
  | Some c => if String.eqb c "" then "Sent via Telegram" else c
  | None => "Sent via Telegram"
  end.

Section Telegram.

(** [json.loads] and the module globals. *)
Variable json_loads : string → exception + pyval.
Variable GeminiClient : option Client.
Variable sheet : option Worksheet.
Variable bot : option Bot.

(** [str(v)], as an f-string applies it to a field. It is a parameter:
    the rendering of numbers, lists and dicts is Python's own. *)
Variable py_str : pyval → string.

Definition handle_image (update : Update) : T () :=
  match bot with
  | None =>
      match message update with
      | Some _ => reply update "Telegram bot is currently unavailable."
      | None => mret ()
      end
  | Some _ =>
      match download_image update with
      | inl e => reply update "Sorry, I couldn't download the image."
      | inr img_data =>
          msg ← tlift (message_attr update "caption");
          let telegram_user_note := caption_or_default msg in
          res ← run_pipeline
                  (process_and_log_transaction json_loads GeminiClient sheet
                     img_data telegram_user_note);
          let '(processed_data, success) := res in
          if success && py_truthy processed_data then
            amount ← tlift (obj_get processed_data "Amount" (PStr "N/A"));
            platform ← tlift (obj_get processed_data "Platform" (PStr "N/A"));
            date ← tlift (obj_get processed_data "Date" (PStr "N/A"));
            reply update
              ("Logged: " +:+ py_str amount +:+ " on " +:+ py_str platform
               +:+ " (" +:+ py_str date +:+ "). Note: "
               +:+ telegram_user_note)
          else
            error_detail ←
              (if py_truthy processed_data
               then tlift (obj_get processed_data "error"
                             (PStr "Unknown error"))
               else mret (PStr "Unknown error"));
            reply update ("Error processing image: " +:+ py_str error_detail)
      end
  end.

End Telegram.

(** ** Services and texts for the scenarios *)

(** A client which answers every request with [r]; a worksheet which
    answers every append with [r]. *)
Definition client_answering (r : exception + option string) : Client :=
  {| generate_content := λ _ _ _ _, r |}.

Definition sheet_answering (r : exception + unit) : Worksheet :=
  {| append_row := λ _, r |}.

(** A JSON string literal without escapes. *)
Definition quoted (s : string) : string := dq +:+ s +:+ dq.

(** [```json {"Amount":"250","Date":"2024-01-05","Platform":"UPI"} ```] *)
Definition scenario1_text : string :=
  "```json {" +:+ quoted "Amount" +:+ ":" +:+ quoted "250" +:+ ","
  +:+ quoted "Date" +:+ ":" +:+ quoted "2024-01-05" +:+ ","
  +:+ quoted "Platform" +:+ ":" +:+ quoted "UPI" +:+ "} ```".

(** [{"Amount":"10"}] *)
Definition amount_only_text : string :=
  "{" +:+ quoted "Amount" +:+ ":" +:+ quoted "10" +:+ "}".

(** [Sure: {"Amount":"5","Note":"from model","Tip":1} done] *)
Definition extra_keys_text : string :=
  "Sure: {" +:+ quoted "Amount" +:+ ":" +:+ quoted "5" +:+ ","
  +:+ quoted "Note" +:+ ":" +:+ quoted "from model" +:+ ","
  +:+ quoted "Tip" +:+ ":1} done".

(** The object this text holds. *)
Definition extra_keys_object : gmap string pyval :=
  <["Amount" := PStr "5"]>
    (<["Note" := PStr "from model"]> {["Tip" := PInt 1]}).

(** An upload request with the fields [image] and [note]. *)
Definition upload_request (name : string) (content : exception + bytes)
    (note : string) : Request :=
  {| files := {[ "image" := {| filename := name; read := content |} ]};
     form := {[ "note" := note ]} |}.

(** An update with one photo size whose content is [content], the caption
    [cap], and whose [reply_text] answers [answer]. *)
Definition photo_update (content : exception + bytes) (cap : option string)
    (answer : exception + unit) : Update :=
  {| message :=
       Some {| photo := [ {| get_file :=
                               inr {| download_as_bytearray := content |} |} ];
               caption := cap;
               reply_text := λ _, answer |} |}.

(** [str] on the fields of a run whose fields are strings; it renders no
    other value. *)
Definition str_of_strings (v : pyval) : string :=
  match v with
  | PStr s => s
  | _ => ""
  end.

(** The world before any call or reply. *)
Definition fresh_world : world := {| calls := []; replies := [] |}.

(** Every character of the text is whitespace. *)
Fixpoint whitespace_only (s : string) : bool :=
  match s with
  | String c s' => Py.isspace c && whitespace_only s'
  | EmptyString => true
  end.

(** The key read for each of the first five columns of the row. *)
Definition canonical_columns : list (nat * string) :=
  [ (0, "Amount"); (1, "Date"); (2, "Platform"); (3, "Items");
    (4, "Vendor") ]%nat.

(** * Properties *)

(** ** The string operations *)

Module PyFacts.
Import Py.

Lemma len_nonneg s : 0 ≤ len s.
Proof. unfold len. lia. Qed.

Lemma len_String a s : len (String a s) = 1 + len s.
Proof. unfold len. cbn [String.length]. lia. Qed.

Lemma app_empty t : "" +:+ t = t.
Proof. reflexivity. Qed.

Lemma app_String a s t : String a s +:+ t = String a (s +:+ t).
Proof. reflexivity. Qed.

(** Push [+:+] under the constructors of its first argument. *)
Ltac app_step := rewrite ?app_empty, ?app_String.

Lemma len_app s t : len (s +:+ t) = len s + len t.
Proof.
  induction s as [|a s IH]; app_step.
  - change (len "") with 0. lia.
  - rewrite !len_String, IH. lia.
Qed.

Lemma append_assoc s t u : (s +:+ t) +:+ u = s +:+ (t +:+ u).
Proof. induction s as [|a s IH]; app_step; [done | by rewrite IH]. Qed.

(** A whitespace character is neither brace. *)
Lemma isspace_not_eqb a c :
  isspace a = true → isspace c = false → Ascii.eqb a c = false.
Proof.
  intros Ha Hc. destruct (Ascii.eqb a c) eqn:E; [|done].
  apply Ascii.eqb_eq in E. congruence.
Qed.

(** *** [find] *)

Lemma find_from_range c s i :
  0 ≤ i → find_from c s i = -1 ∨ i ≤ find_from c s i.
Proof.
  revert i. induction s as [|a s IH]; intros i Hi; cbn; [by left |].
  destruct (Ascii.eqb a c); [right; lia |].
  destruct (IH (i + 1) ltac:(lia)) as [E | E]; [by left | right; lia].
Qed.

Lemma find_from_succ c s i :
  0 ≤ i →
  find_from c s (i + 1)
  = if find_from c s i =? -1 then -1 else find_from c s i + 1.
Proof.
  revert i. induction s as [|a s IH]; intros i Hi; cbn; [done |].
  destruct (Ascii.eqb a c).
  - destruct (Z.eqb_spec i (-1)); [lia | done].
  - apply IH. lia.
Qed.

Lemma find_from_none c s i : contains c s = false → find_from c s i = -1.
Proof.
  revert i. induction s as [|a s IH]; intros i; cbn; [done |].
  intros [-> ?]%orb_false_elim. by apply IH.
Qed.

Lemma find_from_found c s i :
  0 ≤ i → contains c s = true → i ≤ find_from c s i.
Proof.
  revert i. induction s as [|a s IH]; intros i Hi; cbn; [done |].
  destruct (Ascii.eqb a c); cbn; [lia |].
  intros H. specialize (IH (i + 1) ltac:(lia) H). lia.
Qed.

(** [find] gives [-1] exactly when the character does not occur. *)
Lemma find_none_iff c s : find c s = -1 ↔ contains c s = false.
Proof.
  split; [| apply find_from_none].
  unfold find. intros H. destruct (contains c s) eqn:E; [|done].
  apply (find_from_found c s 0) in E; lia.
Qed.

Lemma find_from_app c pre r i :
  contains c pre = false →
  find_from c (pre +:+ String c r) i = i + len pre.
Proof.
  revert i. induction pre as [|a pre IH]; intros i; app_step;
    cbn [contains find_from].
  - intros _. rewrite Ascii.eqb_refl. change (len "") with 0. lia.
  - intros [-> ?]%orb_false_elim. rewrite IH by done.
    rewrite len_String. lia.
Qed.

(** *** [rfind] *)

Lemma rfind_from_range c s i :
  0 ≤ i → rfind_from c s i = -1 ∨ i ≤ rfind_from c s i.
Proof.
  revert i. induction s as [|a s IH]; intros i Hi; cbn; [by left |].
  destruct (IH (i + 1) ltac:(lia)) as [E | E].
  - rewrite E. cbn. destruct (Ascii.eqb a c); [right; lia | by left].
  - destruct (Z.eqb_spec (rfind_from c s (i + 1)) (-1)); [lia | right; lia].
Qed.

Lemma rfind_from_succ c s i :
  0 ≤ i →
  rfind_from c s (i + 1)
  = if rfind_from c s i =? -1 then -1 else rfind_from c s i + 1.
Proof.
  revert i. induction s as [|a s IH]; intros i Hi; cbn; [done |].
  rewrite IH by lia.
  destruct (rfind_from_range c s (i + 1) ltac:(lia)) as [E | E].
  - rewrite E. cbn. destruct (Ascii.eqb a c); [|done].
    destruct (Z.eqb_spec i (-1)); [lia | done].
  - destruct (Z.eqb_spec (rfind_from c s (i + 1)) (-1)) as [E1 | E1]; [lia |].
    destruct (Z.eqb_spec (rfind_from c s (i + 1) + 1) (-1)) as [E2 | E2];
      [lia |].
    destruct (Z.eqb_spec (rfind_from c s (i + 1)) (-1)); [lia | done].
Qed.

Lemma rfind_from_none c s i : contains c s = false → rfind_from c s i = -1.
Proof.
  revert i. induction s as [|a s IH]; intros i; cbn; [done |].
  intros [-> ?]%orb_false_elim. by rewrite IH.
Qed.

Lemma rfind_from_found c s i :
  0 ≤ i → contains c s = true → i ≤ rfind_from c s i.
Proof.
  revert i. induction s as [|a s IH]; intros i Hi; cbn; [done |].
  intros H. destruct (contains c s) eqn:E.
  - specialize (IH (i + 1) ltac:(lia) eq_refl).
    destruct (Z.eqb_spec (rfind_from c s (i + 1)) (-1)); lia.
  - rewrite orb_false_r in H. rewrite H, (rfind_from_none c s) by done.
    cbn. lia.
Qed.

Lemma rfind_none_iff c s : rfind c s = -1 ↔ contains c s = false.
Proof.
  split; [| apply rfind_from_none].
  unfold rfind. intros H. destruct (contains c s) eqn:E; [|done].
  apply (rfind_from_found c s 0) in E; lia.
Qed.

Lemma rfind_from_app c s suf i :
  0 ≤ i → contains c suf = false →
  rfind_from c (s +:+ String c suf) i = i + len s.
Proof.
  intros Hi Hsuf. revert i Hi.
  induction s as [|a s IH]; intros i Hi; app_step; cbn [rfind_from].
  - rewrite rfind_from_none by done. cbn. rewrite Ascii.eqb_refl.
    change (len "") with 0. lia.
  - rewrite IH by lia. rewrite len_String.
    pose proof (len_nonneg s).
    destruct (Z.eqb_spec (i + 1 + len s) (-1)); lia.
Qed.

(** *** [strip] *)

Lemma lstrip_app c pre r :
  isspace c = false → lstrip (pre +:+ String c r) = lstrip pre +:+ String c r.
Proof.
  intros Hc. induction pre as [|a pre IH]; app_step; cbn [lstrip].
  - by rewrite Hc.
  - destruct (isspace a); [done | by app_step].
Qed.

Lemma rstrip_app c s suf :
  isspace c = false →
  rstrip (s +:+ String c suf) = s +:+ String c (rstrip suf).
Proof.
  intros Hc. induction s as [|a s IH]; app_step; cbn [rstrip].
  - destruct (rstrip suf); [by rewrite Hc | done].
  - rewrite IH. by destruct s.
Qed.

Lemma contains_lstrip c s : contains c s = false → contains c (lstrip s) = false.
Proof.
  induction s as [|a s IH]; cbn [lstrip contains]; [done |].
  intros [Ha Hs]%orb_false_elim.
  destruct (isspace a); [by apply IH |]. cbn [contains]. by rewrite Ha, Hs.
Qed.

Lemma contains_rstrip c s : contains c s = false → contains c (rstrip s) = false.
Proof.
  induction s as [|a s IH]; cbn [rstrip contains]; [done |].
  intros [Ha Hs]%orb_false_elim. specialize (IH Hs).
  destruct (rstrip s) as [|b r].
  - destruct (isspace a); [done |]. cbn [contains]. by rewrite Ha.
  - cbn [contains] in *. by rewrite Ha.
Qed.

Lemma find_from_rstrip c s i :
  isspace c = false → find_from c (rstrip s) i = find_from c s i.
Proof.
  intros Hc. revert i.
  induction s as [|a s IH]; intros i; cbn [rstrip find_from]; [done |].
  rewrite <- IH. destruct (rstrip s) as [|b r]; [| done].
  destruct (isspace a) eqn:Ha; cbn [find_from].
  - by rewrite (isspace_not_eqb a c).
  - done.
Qed.

Lemma rfind_from_rstrip c s i :
  isspace c = false → rfind_from c (rstrip s) i = rfind_from c s i.
Proof.
  intros Hc. revert i.
  induction s as [|a s IH]; intros i; cbn [rstrip rfind_from]; [done |].
  rewrite <- IH. destruct (rstrip s) as [|b r]; [| done].
  destruct (isspace a) eqn:Ha; cbn [rfind_from].
  - by rewrite (isspace_not_eqb a c).
  - done.
Qed.

(** *** The test on [json_start] and [json_end] *)

Lemma span_test_false s :
  span_test s = false
  ↔ find "{" s = -1 ∨ rfind "}" s = -1 ∨ rfind "}" s ≤ find "{" s.
Proof.
  unfold span_test.
  destruct (Z.eqb_spec (find "{" s) (-1)), (Z.eqb_spec (rfind "}" s) (-1)),
    (Z.ltb_spec (find "{" s) (rfind "}" s)); cbn; split;
    try done; try (intros _; lia); intros [?|[?|?]]; lia.
Qed.

Lemma span_test_cons a s :
  isspace a = true → span_test (String a s) = span_test s.
Proof.
  intros Ha. unfold span_test, find, rfind. cbn [find_from rfind_from].
  rewrite !(isspace_not_eqb a) by done.
  rewrite (find_from_succ "{" s 0), (rfind_from_succ "}" s 0) by lia.
  pose proof (find_from_range "{" s 0 ltac:(lia)) as Hf.
  pose proof (rfind_from_range "}" s 0 ltac:(lia)) as Hr.
  set (f := find_from "{" s 0) in *. set (r := rfind_from "}" s 0) in *.
  destruct (Z.eqb_spec f (-1)), (Z.eqb_spec r (-1)); cbn [negb andb];
    rewrite ?andb_false_r; try done.
  destruct (Z.eqb_spec (f + 1) (-1)); [lia |].
  destruct (Z.eqb_spec (r + 1) (-1)); [lia |]. cbn [negb andb].
  destruct (Z.ltb_spec (f + 1) (r + 1)), (Z.ltb_spec f r); lia || done.
Qed.

Lemma span_test_lstrip s : span_test (lstrip s) = span_test s.
Proof.
  induction s as [|a s IH]; cbn [lstrip]; [done |].
  destruct (isspace a) eqn:Ha; [| done]. by rewrite span_test_cons.
Qed.

Lemma span_test_rstrip s : span_test (rstrip s) = span_test s.
Proof.
  unfold span_test, find, rfind.
  by rewrite !find_from_rstrip, !rfind_from_rstrip.
Qed.

Lemma span_test_strip s : span_test (strip s) = span_test s.
Proof. unfold strip. by rewrite span_test_rstrip, span_test_lstrip. Qed.

(** *** Slices *)

Lemma substring_all x y :
  substring 0 (String.length x) (x +:+ y) = x.
Proof. induction x as [|a x IH]; app_step; cbn; [by destruct y | by rewrite IH]. Qed.

Lemma substring_app p x y :
  substring (String.length p) (String.length x) (p +:+ (x +:+ y)) = x.
Proof.
  induction p as [|a p IH]; app_step; cbn [String.length substring];
    [apply substring_all | done].
Qed.

Lemma slice_app p x y : slice (p +:+ (x +:+ y)) (len p) (len p + len x) = x.
Proof.
  unfold slice, slice_bound. rewrite !len_app.
  pose proof (len_nonneg p). pose proof (len_nonneg x).
  pose proof (len_nonneg y).
  destruct (Z.ltb_spec (len p) 0); [lia |].
  destruct (Z.ltb_spec (len p + len x) 0); [lia |].
  rewrite !Z.min_l by lia.
  replace (len p + len x - len p) with (len x) by lia.
  unfold len. rewrite !Nat2Z.id. apply substring_app.
Qed.

End PyFacts.

(** ** The candidate span *)

(** The candidate exists exactly when the test passes on the response
    itself: stripping moves no brace. *)
Lemma json_candidate_None text :
  json_candidate text = None ↔ Py.span_test text = false.
Proof.
  rewrite <- (PyFacts.span_test_strip text).
  unfold json_candidate, Py.span_test.
  by destruct (_ && _ && _).
Qed.

(** With no opening brace before [pre]'s end and no closing brace in
    [suf], the candidate is the span between them. *)
Lemma json_candidate_span pre mid suf :
  Py.contains "{" pre = false → Py.contains "}" suf = false →
  json_candidate (pre +:+ String "{" (mid +:+ String "}" suf))
  = Some (String "{" (mid +:+ String "}" "")).
Proof.
  intros Hpre Hsuf. unfold json_candidate, Py.strip.
  rewrite PyFacts.lstrip_app by done.
  change (String "{" (mid +:+ String "}" suf))
    with (String "{" mid +:+ String "}" suf).
  rewrite <- PyFacts.append_assoc, PyFacts.rstrip_app by done.
  set (p := Py.lstrip pre). set (s := Py.rstrip suf).
  assert (Hf : Py.find "{" ((p +:+ String "{" mid) +:+ String "}" s) = Py.len p).
  { rewrite PyFacts.append_assoc. unfold Py.find.
    change (String "{" mid +:+ String "}" s)
      with (String "{" (mid +:+ String "}" s)).
    rewrite PyFacts.find_from_app; [lia | by apply PyFacts.contains_lstrip]. }
  assert (Hr : Py.rfind "}" ((p +:+ String "{" mid) +:+ String "}" s)
               = Py.len p + 1 + Py.len mid).
  { unfold Py.rfind.
    rewrite PyFacts.rfind_from_app;
      [| lia | by apply PyFacts.contains_rstrip].
    rewrite PyFacts.len_app, PyFacts.len_String. lia. }
  rewrite Hf, Hr.
  pose proof (PyFacts.len_nonneg p). pose proof (PyFacts.len_nonneg mid).
  destruct (Z.eqb_spec (Py.len p) (-1)); [lia |].
  destruct (Z.eqb_spec (Py.len p + 1 + Py.len mid) (-1)); [lia |].
  destruct (Z.ltb_spec (Py.len p) (Py.len p + 1 + Py.len mid)); [| lia].
  cbn [negb andb]. f_equal.
  set (x := String "{" (mid +:+ String "}" "")).
  assert (Hx : (p +:+ String "{" mid) +:+ String "}" s = p +:+ (x +:+ s)).
  { rewrite PyFacts.append_assoc. f_equal. unfold x.
    rewrite !PyFacts.app_String. f_equal.
    by rewrite PyFacts.append_assoc, PyFacts.app_String, PyFacts.app_empty. }
  assert (Hlen : Py.len p + 1 + Py.len mid + 1 = Py.len p + Py.len x).
  { unfold x. rewrite PyFacts.len_String, PyFacts.len_app, PyFacts.len_String.
    change (Py.len "") with 0. lia. }
  rewrite Hx, Hlen. apply PyFacts.slice_app.
Qed.

(** A text on which the test passes has an opening brace with none before
    it, and after it a closing brace with none behind it. *)
Lemma contains_first c s :
  Py.contains c s = true →
  ∃ pre r, s = pre +:+ String c r ∧ Py.contains c pre = false.
Proof.
  induction s as [|a s IH]; cbn [Py.contains]; [done |].
  destruct (Ascii.eqb_spec a c) as [-> | Hne]; cbn [orb].
  - intros _. by exists "", s.
  - intros (pre & r & -> & Hpre)%IH. exists (String a pre), r. split; [done |].
    cbn [Py.contains]. rewrite Hpre.
    by destruct (Ascii.eqb_spec a c).
Qed.

Lemma contains_last c s :
  Py.contains c s = true →
  ∃ s' suf, s = s' +:+ String c suf ∧ Py.contains c suf = false.
Proof.
  induction s as [|a s IH]; cbn [Py.contains]; [done |].
  destruct (Py.contains c s) eqn:E.
  - intros _. destruct (IH eq_refl) as (s' & suf & -> & Hsuf).
    by exists (String a s'), suf.
  - rewrite orb_false_r. intros ->%Ascii.eqb_eq. by exists "", s.
Qed.

Lemma app_split pre c1 rest s' c2 suf :
  pre +:+ String c1 rest = s' +:+ String c2 suf →
  Py.len pre < Py.len s' →
  ∃ mid, s' = pre +:+ String c1 mid ∧ rest = mid +:+ String c2 suf.
Proof.
  revert s'. induction pre as [|a pre IH]; intros s' Heq Hlt.
  - destruct s' as [|b s'].
    + change (Py.len "") with 0 in Hlt. lia.
    + rewrite PyFacts.app_empty, PyFacts.app_String in Heq.
      injection Heq as -> ->. by exists s'.
  - destruct s' as [|b s'].
    + pose proof (PyFacts.len_nonneg (String a pre)).
      change (Py.len "") with 0 in Hlt. lia.
    + rewrite !PyFacts.app_String in Heq. injection Heq as -> Heq.
      rewrite !PyFacts.len_String in Hlt.
      destruct (IH s' Heq ltac:(lia)) as (mid & -> & ->). by exists mid.
Qed.

Lemma span_test_decompose text :
  Py.span_test text = true →
  ∃ pre mid suf,
    text = pre +:+ String "{" (mid +:+ String "}" suf)
    ∧ Py.contains "{" pre = false ∧ Py.contains "}" suf = false.
Proof.
  unfold Py.span_test. intros [[Hf Hr]%andb_prop Hlt%Z.ltb_lt]%andb_prop.
  apply negb_true_iff, Z.eqb_neq in Hf, Hr.
  destruct (Py.contains "{" text) eqn:Eo;
    [| by apply PyFacts.find_none_iff in Eo].
  destruct (Py.contains "}" text) eqn:Ec;
    [| by apply PyFacts.rfind_none_iff in Ec].
  destruct (contains_first _ _ Eo) as (pre & rest & E1 & Hpre).
  destruct (contains_last _ _ Ec) as (s' & suf & E2 & Hsuf).
  assert (Py.find "{" text = Py.len pre) as Hfv.
  { rewrite E1. unfold Py.find. rewrite PyFacts.find_from_app by done. lia. }
  assert (Py.rfind "}" text = Py.len s') as Hrv.
  { rewrite E2. unfold Py.rfind. rewrite PyFacts.rfind_from_app by (done || lia).
    lia. }
  rewrite Hfv, Hrv in Hlt.
  destruct (app_split pre "{" rest s' "}" suf) as (mid & -> & ->);
    [congruence | done |].
  exists pre, mid, suf. by rewrite E1.
Qed.

(** The candidate, for every response: the slice of the response itself
    from its first opening brace to its last closing brace. *)
Lemma json_candidate_slice text :
  json_candidate text
  = if Py.span_test text
    then Some (Py.slice text (Py.find "{" text) (Py.rfind "}" text + 1))
    else None.
Proof.
  destruct (Py.span_test text) eqn:E; [| by apply json_candidate_None].
  destruct (span_test_decompose text E) as (pre & mid & suf & -> & Hpre & Hsuf).
  rewrite json_candidate_span by done. f_equal.
  set (x := String "{" (mid +:+ String "}" "")).
  assert (Hx : pre +:+ String "{" (mid +:+ String "}" suf) = pre +:+ (x +:+ suf)).
  { f_equal. unfold x. rewrite PyFacts.app_String. f_equal.
    by rewrite PyFacts.append_assoc, PyFacts.app_String, PyFacts.app_empty. }
  assert (Hf : Py.find "{" (pre +:+ String "{" (mid +:+ String "}" suf))
               = Py.len pre).
  { unfold Py.find. rewrite PyFacts.find_from_app by done. lia. }
  assert (Hr : Py.rfind "}" (pre +:+ String "{" (mid +:+ String "}" suf)) + 1
               = Py.len pre + Py.len x).
  { change (String "{" (mid +:+ String "}" suf))
      with (String "{" mid +:+ String "}" suf).
    rewrite <- PyFacts.append_assoc. unfold Py.rfind.
    rewrite PyFacts.rfind_from_app by (done || lia).
    unfold x. rewrite PyFacts.len_app, !PyFacts.len_String, PyFacts.len_app,
      PyFacts.len_String.
    change (Py.len "") with 0. lia. }
  rewrite Hf, Hr, Hx. symmetry. apply PyFacts.slice_app.
Qed.

(** ** One run of the pipeline *)

Ltac run_step :=
  unfold try_except, mbind, M_bind, bind, call, lift_result, strip_receiver,
    setitem, ret, raise; cbn.

(** With both handles present, the run is decided by the answer of the
    model, the candidate, the decoder and the worksheet, in this order. *)
Lemma process_run json_loads client sh image note tr :
  process_and_log_transaction json_loads (Some client) (Some sh) image note tr
  = let tr1 := (tr ++ [generate_event image])%list in
    match generate client image with
    | inl e => (inr (request_failed_payload e, false), tr1)
    | inr None =>
        (inr (request_failed_payload
                (PyException "'NoneType' object has no attribute 'strip'"),
              false), tr1)
    | inr (Some text) =>
        match json_candidate text with
        | None => (inr (no_json_payload text, false), tr1)
        | Some span =>
            match json_loads span with
            | inl e =>
                (inr (if isinstance_JSONDecodeError e
                      then malformed_json_payload e text
                      else request_failed_payload e, false), tr1)
            | inr v =>
                match fst (setitem v "Note" (PStr note) tr1) with
                | inl e => (inr (request_failed_payload e, false), tr1)
                | inr d =>
                    let row := ledger_row d note text in
                    let tr2 := (tr1 ++ [AppendRow row])%list in
                    match append_row sh row with
                    | inr _ => (inr (PDict d, true), tr2)
                    | inl e =>
                        (inr (if isinstance_JSONDecodeError e
                              then malformed_json_payload e text
                              else request_failed_payload e, false), tr2)
                    end
                end
            end
        end
    end.
Proof.
  unfold process_and_log_transaction, decode_and_log. run_step.
  destruct (generate client image) as [e | [text |]]; cbn; [done | | done].
  destruct (json_candidate text) as [span |]; cbn; [| done].
  destruct (json_loads span) as [e | v]; cbn.
  - by destruct e.
  - destruct v; cbn; try done.
    destruct (append_row sh _) as [e | u]; cbn; [by destruct e | done].
Qed.

(** The outcome of any run: its result, what a failure returns, and which
    calls it made. *)
Lemma process_outcome
    json_loads GeminiClient sheet image note tr :
  ∃ payload success new,
    process_and_log_transaction json_loads GeminiClient sheet image note tr
    = (inr (payload, success), (tr ++ new)%list)
    ∧ (success = false →
       ∃ d msg, payload = PDict d ∧ d !! "error" = Some (PStr msg))
    ∧ (∀ row, AppendRow row ∈ new →
         ∃ client sh text span d,
           GeminiClient = Some client ∧ sheet = Some sh
           ∧ generate client image = inr (Some text)
           ∧ json_candidate text = Some span
           ∧ json_loads span = inr (PDict d)
           ∧ new = [generate_event image; AppendRow row])
    ∧ ((∀ client sh text span d,
          ¬ (GeminiClient = Some client ∧ sheet = Some sh
             ∧ generate client image = inr (Some text)
             ∧ json_candidate text = Some span
             ∧ json_loads span = inr (PDict d))) →
       success = false ∧ (new = [] ∨ new = [generate_event image])).
Proof.
  assert (Herr : ∀ e text,
    ∃ d msg,
      (if isinstance_JSONDecodeError e then malformed_json_payload e text
       else request_failed_payload e) = PDict d
      ∧ d !! "error" = Some (PStr msg)).
  { intros e text. destruct e; cbn; eexists _, _; split; try done;
      by rewrite lookup_insert_eq. }
  destruct GeminiClient as [client |]; [destruct sheet as [sh |] |].
  2,3: eexists _, _, []; rewrite app_nil_r; split; [done |];
       split; [intros _; eexists _, _; split; [done |];
               by rewrite lookup_singleton_eq |];
       split; [by intros row ?%elem_of_nil | auto].
  rewrite process_run. cbn zeta.
  destruct (generate client image) as [e | [text |]] eqn:Hg.
  1,3: eexists _, false, [_]; split; [done |];
       split; [intros _; eexists _, _; split; [done |];
               by rewrite lookup_insert_eq |];
       split; [intros row [=]%list_elem_of_singleton | auto].
  destruct (json_candidate text) as [span |] eqn:Hc.
  2: { eexists _, false, [_]; split; [done |].
       split; [intros _; eexists _, _; split; [done |];
               by rewrite lookup_insert_eq |].
       split; [intros row [=]%list_elem_of_singleton | auto]. }
  destruct (json_loads span) as [e | v] eqn:Hl.
  { destruct (Herr e text) as (d & msg & Hd & Hmsg).
    eexists _, false, [_]; split; [done |].
    split; [intros _; by exists d, msg |].
    split; [intros row [=]%list_elem_of_singleton | auto]. }
  destruct v as [| | | | | | d0].
  1-6: eexists _, false, [_]; split; [done |];
       split; [intros _; eexists _, _; split; [done |];
               by rewrite lookup_insert_eq |];
       split; [intros row [=]%list_elem_of_singleton | auto].
  cbn [setitem ret fst].
  set (row := ledger_row (<["Note" := PStr note]> d0) note text).
  assert (Hrow : ∀ row', AppendRow row' ∈ [generate_event image; AppendRow row] →
                 row' = row).
  { intros row' [[=] | ?%list_elem_of_singleton]%elem_of_cons; congruence. }
  destruct (append_row sh row) as [e | u] eqn:Ha.
  - destruct (Herr e text) as (d & msg & Hd & Hmsg).
    exists (if isinstance_JSONDecodeError e then malformed_json_payload e text
            else request_failed_payload e), false,
      [generate_event image; AppendRow row].
    rewrite <- app_assoc. split; [done |].
    split; [intros _; by exists d, msg |].
    split; [| intros Hno; by destruct (Hno client sh text span d0)].
    intros row' ->%Hrow. by exists client, sh, text, span, d0.
  - exists (PDict (<["Note" := PStr note]> d0)), true,
      [generate_event image; AppendRow row].
    rewrite <- app_assoc. split; [done |]. split; [done |].
    split; [| intros Hno; by destruct (Hno client sh text span d0)].
    intros row' ->%Hrow. by exists client, sh, text, span, d0.
Qed.

(** A successful run: the handles are present, the model answered with a
    text whose candidate decodes to an object [d0], the worksheet accepted
    the row, and the result is [d0] with the note set. *)
Lemma process_success json_loads GeminiClient sheet image note tr record tr' :
  process_and_log_transaction json_loads GeminiClient sheet image note tr
  = (inr (record, true), tr') →
  ∃ client sh text span d0,
    GeminiClient = Some client ∧ sheet = Some sh
    ∧ generate client image = inr (Some text)
    ∧ json_candidate text = Some span
    ∧ json_loads span = inr (PDict d0)
    ∧ record = PDict (<["Note" := PStr note]> d0)
    ∧ tr' = (tr ++ [generate_event image;
                    AppendRow (ledger_row (<["Note" := PStr note]> d0)
                                 note text)])%list.
Proof.
  destruct GeminiClient as [client |]; [destruct sheet as [sh |] |];
    [| done | done].
  rewrite process_run. cbn zeta.
  destruct (generate client image) as [e | [text |]] eqn:Hg; [done | | done].
  destruct (json_candidate text) as [span |] eqn:Hc; [| done].
  destruct (json_loads span) as [e | v] eqn:Hl; [done |].
  destruct v as [| | | | | | d0]; try done. cbn [setitem ret fst].
  destruct (append_row sh _) as [e | u]; [done |].
  intros [= <- <-]. exists client, sh, text, span, d0.
  by rewrite <- app_assoc.
Qed.

(** The row of a run whose candidate decodes to the object [d]. *)
Lemma process_decoded json_loads client sh image note tr text span d :
  generate client image = inr (Some text) →
  json_candidate text = Some span →
  json_loads span = inr (PDict d) →
  snd (process_and_log_transaction json_loads (Some client) (Some sh) image
         note tr)
  = (tr ++ [generate_event image;
            AppendRow (ledger_row (<["Note" := PStr note]> d) note text)])%list.
Proof.
  intros Hg Hc Hl. rewrite process_run, Hg, Hc, Hl. cbn [setitem ret fst].
  cbn zeta. rewrite <- app_assoc. by destruct (append_row sh _).
Qed.

(** Setting the note leaves the columns read from the other keys as the
    decoded object gives them. *)
Lemma ledger_row_decoded d note text :
  ledger_row (<["Note" := PStr note]> d) note text
  = [ dict_get d "Amount" (PStr ""); dict_get d "Date" (PStr "");
      dict_get d "Platform" (PStr ""); dict_get d "Items" (PStr "");
      dict_get d "Vendor" (PStr ""); PStr note; PStr text ].
Proof.
  unfold ledger_row, dict_get. by rewrite !lookup_insert_ne.
Qed.

(** A run which returns [True] has seen the worksheet accept the row. *)
Lemma process_true_inv json_loads GeminiClient sheet image note tr record tr' :
  process_and_log_transaction json_loads GeminiClient sheet image note tr
  = (inr (record, true), tr') →
  ∃ client sh text span d0,
    GeminiClient = Some client ∧ sheet = Some sh
    ∧ generate client image = inr (Some text)
    ∧ json_candidate text = Some span
    ∧ json_loads span = inr (PDict d0)
    ∧ append_row sh (ledger_row (<["Note" := PStr note]> d0) note text)
      = inr ().
Proof.
  destruct GeminiClient as [client |]; [destruct sheet as [sh |] |];
    [| done | done].
  rewrite process_run. cbn zeta.
  destruct (generate client image) as [e | [text |]] eqn:Hg; [done | | done].
  destruct (json_candidate text) as [span |] eqn:Hc; [| done].
  destruct (json_loads span) as [e | v] eqn:Hl; [done |].
  destruct v as [| | | | | | d0]; try done. cbn [setitem ret fst].
  destruct (append_row sh _) as [e | []] eqn:Ha; [done |].
  intros _. by exists client, sh, text, span, d0.
Qed.

(** A run whose append raises returns [False] with an error payload,
    after the request and that one append. *)
Lemma process_append_raises json_loads client sh image note tr text span d e :
  generate client image = inr (Some text) →
  json_candidate text = Some span →
  json_loads span = inr (PDict d) →
  append_row sh (ledger_row (<["Note" := PStr note]> d) note text) = inl e →
  process_and_log_transaction json_loads (Some client) (Some sh) image note tr
  = (inr (if isinstance_JSONDecodeError e
          then malformed_json_payload e text
          else request_failed_payload e, false),
     (tr ++ [generate_event image;
             AppendRow (ledger_row (<["Note" := PStr note]> d) note text)])%list).
Proof.
  intros Hg Hc Hl Ha. rewrite process_run, Hg, Hc, Hl. cbn [setitem ret fst].
  cbn zeta. by rewrite Ha, <- app_assoc.
Qed.

(** A run whose append returns gives the decoded object with the note. *)
Lemma process_append_returns json_loads client sh image note tr text span d :
  generate client image = inr (Some text) →
  json_candidate text = Some span →
  json_loads span = inr (PDict d) →
  append_row sh (ledger_row (<["Note" := PStr note]> d) note text) = inr () →
  process_and_log_transaction json_loads (Some client) (Some sh) image note tr
  = (inr (PDict (<["Note" := PStr note]> d), true),
     (tr ++ [generate_event image;
             AppendRow (ledger_row (<["Note" := PStr note]> d) note text)])%list).
Proof.
  intros Hg Hc Hl Ha. rewrite process_run, Hg, Hc, Hl. cbn [setitem ret fst].
  cbn zeta. by rewrite Ha, <- app_assoc.
Qed.

(** ** The claims *)

(** C1. For every response text [text], the candidate handed to the
    decoder is the slice of [text] from its first opening brace to its
    last closing brace, both included, whenever the first precedes the
    last; a text of the shape [pre {a} middle {b} suf] gives the candidate
    [{a} middle {b}], not one of the two objects; and the run depends on
    the decoder through its value on the candidate alone: two decoders
    which agree there give the same run, and a decode error there is
    reported with the error's text. *)
Theorem C1_candidate_is_outermost_span (text : string) :
  json_candidate text
  = (if Py.span_test text
     then Some (Py.slice text (Py.find "{" text) (Py.rfind "}" text + 1))
     else None)
  ∧ (∀ pre a middle b suf,
       text = pre +:+ "{" +:+ a +:+ "}" +:+ middle +:+ "{" +:+ b +:+ "}" +:+ suf →
       Py.contains "{" pre = false → Py.contains "}" suf = false →
       json_candidate text
       = Some ("{" +:+ a +:+ "}" +:+ middle +:+ "{" +:+ b +:+ "}"))
  ∧ (∀ loads1 loads2 client sh image note tr span,
       generate client image = inr (Some text) →
       json_candidate text = Some span →
       loads1 span = loads2 span →
       process_and_log_transaction loads1 (Some client) (Some sh) image note tr
       = process_and_log_transaction loads2 (Some client) (Some sh) image
           note tr)
  ∧ (∀ json_loads client sh image note tr span e,
       generate client image = inr (Some text) →
       json_candidate text = Some span →
       json_loads span = inl e → isinstance_JSONDecodeError e = true →
       process_and_log_transaction json_loads (Some client) (Some sh) image
         note tr
       = (inr (malformed_json_payload e text, false),
          (tr ++ [generate_event image])%list)).
Proof.
  split; [apply json_candidate_slice |]. split; [| split].
  - intros pre a middle b suf -> Hpre Hsuf.
    rewrite !PyFacts.app_String, !PyFacts.app_empty.
    pose proof (json_candidate_span pre
                  (a +:+ String "}" (middle +:+ String "{" b)) suf Hpre Hsuf)
      as H.
    by repeat rewrite ?PyFacts.append_assoc, ?PyFacts.app_String in H.
  - intros loads1 loads2 client sh image note tr span Hg Hc Hl.
    by rewrite !process_run, Hg, Hc, Hl.
  - intros json_loads client sh image note tr span e Hg Hc Hl He.
    by rewrite process_run, Hg, Hc, Hl, He.
Qed.

(** The text [Here: {1} and {2}.] gives the candidate [{1} and {2}]. *)
Lemma C1_candidate_is_outermost_span_witness :
  json_candidate "Here: {1} and {2}." = Some "{1} and {2}".
Proof.
  apply (proj1 (proj2 (C1_candidate_is_outermost_span "Here: {1} and {2}."))
           "Here: " "1" " and " "2" "."); reflexivity.
Defined.

(** C2, as the code has it. When the worksheet raises an error which is
    not a JSON decode error, after the model answered, the candidate
    decoded to an object and the row was built, the pipeline returns
    [False] with the payload of its catch-all handler, [{"error": "Gemini
    API request failed", "details": str(e)}]: the payload it returns when
    the request to the model raises the same error. The decoded object is
    not in the payload, and the run made one append and no other call
    after it. *)
Theorem C2_append_error_reported_by_catch_all
    json_loads client sh image note tr text span d e :
  generate client image = inr (Some text) →
  json_candidate text = Some span →
  json_loads span = inr (PDict d) →
  append_row sh (ledger_row (<["Note" := PStr note]> d) note text) = inl e →
  isinstance_JSONDecodeError e = false →
  process_and_log_transaction json_loads (Some client) (Some sh) image note tr
  = (inr (PDict (<[ "error" := PStr "Gemini API request failed" ]>
                 {[ "details" := PStr (str_exc e) ]}), false),
     (tr ++ [generate_event image;
             AppendRow (ledger_row (<["Note" := PStr note]> d) note text)])%list)
  ∧ ∀ client' sh',
      generate client' image = inl e →
      fst (process_and_log_transaction json_loads (Some client') (Some sh')
             image note tr)
      = fst (process_and_log_transaction json_loads (Some client) (Some sh)
               image note tr).
Proof.
  intros Hg Hc Hl Ha He.
  assert (Hrun :
    process_and_log_transaction json_loads (Some client) (Some sh) image note tr
    = (inr (request_failed_payload e, false),
       (tr ++ [generate_event image;
               AppendRow (ledger_row (<["Note" := PStr note]> d) note text)])
       %list)).
  { rewrite process_run, Hg, Hc, Hl. cbn [setitem ret fst]. cbn zeta.
    by rewrite Ha, He, <- app_assoc. }
  split; [done |]. intros client' sh' Hg'.
  by rewrite Hrun, process_run, Hg'.
Qed.

Lemma C2_append_error_reported_by_catch_all_witness :
  process_and_log_transaction Json.loads
    (Some (client_answering (inr (Some amount_only_text))))
    (Some (sheet_answering (inl (PyException "quota exceeded")))) [] "n" []
  = (inr (PDict (<[ "error" := PStr "Gemini API request failed" ]>
                 {[ "details" := PStr "quota exceeded" ]}), false),
     [generate_event [];
      AppendRow (ledger_row (<["Note" := PStr "n"]> {["Amount" := PStr "10"]})
                   "n" amount_only_text)]).
Proof.
  apply (proj1 (C2_append_error_reported_by_catch_all Json.loads
           (client_answering (inr (Some amount_only_text)))
           (sheet_answering (inl (PyException "quota exceeded"))) [] "n" []
           amount_only_text amount_only_text {["Amount" := PStr "10"]}
           (PyException "quota exceeded")
           eq_refl ltac:(vm_compute; reflexivity)
           ltac:(vm_compute; reflexivity) eq_refl eq_refl)).
Defined.

(** C2, as stated, fails: a run whose append raises and a run whose
    request to the model raises the same error return the same payload,
    whose ["error"] entry is the one of a failed request. *)
Lemma C2_append_failure_kind_counterexample :
  let append_fails :=
    process_and_log_transaction Json.loads
      (Some (client_answering (inr (Some amount_only_text))))
      (Some (sheet_answering (inl (PyException "quota exceeded")))) [] "n" []
  in
  let request_fails :=
    process_and_log_transaction Json.loads
      (Some (client_answering (inl (PyException "quota exceeded"))))
      (Some (sheet_answering (inr ()))) [] "n" []
  in
  snd append_fails
  = [generate_event [];
     AppendRow [ PStr "10"; PStr ""; PStr ""; PStr ""; PStr ""; PStr "n";
                 PStr amount_only_text ]]
  ∧ snd request_fails = [generate_event []]
  ∧ fst append_fails = fst request_fails
  ∧ fst append_fails
    = inr (PDict (<[ "error" := PStr "Gemini API request failed" ]>
                  {[ "details" := PStr "quota exceeded" ]}), false)
  ∧ ¬ ∃ kind : exception + pyval * bool → bool,
        kind (fst append_fails) ≠ kind (fst request_fails).
Proof.
  assert (E :
    fst (process_and_log_transaction Json.loads
           (Some (client_answering (inr (Some amount_only_text))))
           (Some (sheet_answering (inl (PyException "quota exceeded"))))
           [] "n" [])
    = fst (process_and_log_transaction Json.loads
             (Some (client_answering (inl (PyException "quota exceeded"))))
             (Some (sheet_answering (inr ()))) [] "n" []))
    by (vm_compute; reflexivity).
  cbn zeta. repeat split; try (vm_compute; reflexivity).
  intros [kind Hkind]. apply Hkind. by rewrite E.
Qed.

(** C3, as the code has it. The empty-string defaults are applied where
    the row is built, not in the dict the pipeline returns. On the
    response [{"Amount":"10"}] with the note [n] the appended row is [10],
    four empty strings, [n] and the response, and the returned dict is
    [{"Amount": "10", "Note": "n"}]. For any decoded object the row is
    built and handed to the worksheet, whatever keys the object lacks;
    each of the five keys that the object lacks gives the empty string in
    its column of the row, and stays absent from the returned dict, which
    is the decoded object with the note set. *)
Theorem C3_defaults_in_row_not_in_record (image : bytes) (tr : list event) :
  (∀ client sh,
     generate client image = inr (Some amount_only_text) →
     snd (process_and_log_transaction Json.loads (Some client) (Some sh)
            image "n" tr)
     = (tr ++ [generate_event image;
               AppendRow [ PStr "10"; PStr ""; PStr ""; PStr ""; PStr "";
                           PStr "n"; PStr amount_only_text ]])%list
     ∧ (append_row sh [ PStr "10"; PStr ""; PStr ""; PStr ""; PStr "";
                        PStr "n"; PStr amount_only_text ] = inr () →
        fst (process_and_log_transaction Json.loads (Some client) (Some sh)
               image "n" tr)
        = inr (PDict (<["Note" := PStr "n"]> {["Amount" := PStr "10"]}),
               true)))
  ∧ (∀ json_loads client sh note text span d,
       generate client image = inr (Some text) →
       json_candidate text = Some span →
       json_loads span = inr (PDict d) →
       ∃ row,
         snd (process_and_log_transaction json_loads (Some client) (Some sh)
                image note tr)
         = (tr ++ [generate_event image; AppendRow row])%list
         ∧ row !! 5%nat = Some (PStr note)
         ∧ (∀ i k, (i, k) ∈ canonical_columns →
              row !! i = Some (default (PStr "") (d !! k))
              ∧ (d !! k = None → row !! i = Some (PStr "")))
         ∧ (append_row sh row = inr () →
            ∃ record,
              fst (process_and_log_transaction json_loads (Some client)
                     (Some sh) image note tr) = inr (PDict record, true)
              ∧ record = <["Note" := PStr note]> d
              ∧ record !! "Note" = Some (PStr note)
              ∧ ∀ i k, (i, k) ∈ canonical_columns → record !! k = d !! k)).
Proof.
  split.
  - intros client sh Hg.
    assert (Hc : json_candidate amount_only_text = Some amount_only_text)
      by by vm_compute.
    assert (Hl : Json.loads amount_only_text
                 = inr (PDict {["Amount" := PStr "10"]})) by by vm_compute.
    split; [by rewrite (process_decoded _ _ _ _ _ _ _ _ _ Hg Hc Hl) |].
    intros Ha.
    by rewrite (process_append_returns _ _ _ _ _ _ _ _ _ Hg Hc Hl Ha).
  - intros json_loads client sh note text span d Hg Hc Hl.
    eexists. split; [by apply (process_decoded _ _ _ _ _ _ text span d) |].
    split; [by rewrite ledger_row_decoded |].
    split.
    + rewrite ledger_row_decoded.
      intros i k Hin. unfold canonical_columns in Hin.
      assert (Hrow : [ dict_get d "Amount" (PStr "");
                       dict_get d "Date" (PStr "");
                       dict_get d "Platform" (PStr "");
                       dict_get d "Items" (PStr "");
                       dict_get d "Vendor" (PStr ""); PStr note; PStr text ]
                     !! i = Some (default (PStr "") (d !! k))).
      { repeat (apply elem_of_cons in Hin as [[= -> ->] | Hin]; [done |]).
        by apply elem_of_nil in Hin. }
      split; [done |]. intros Hk. by rewrite Hrow, Hk.
    + intros Ha. eexists.
      rewrite (process_append_returns _ _ _ _ _ _ _ _ _ Hg Hc Hl Ha).
      split; [done |]. split; [done |].
      split; [apply lookup_insert_eq |].
      intros i k Hin. unfold canonical_columns in Hin.
      repeat (apply elem_of_cons in Hin as [[= -> ->] | Hin];
              [by rewrite lookup_insert_ne |]).
      by apply elem_of_nil in Hin.
Qed.

Lemma C3_defaults_in_row_not_in_record_witness :
  ∃ row,
    snd (process_and_log_transaction Json.loads
           (Some (client_answering (inr (Some extra_keys_text))))
           (Some (sheet_answering (inr ()))) [] "n" [])
    = ([] ++ [generate_event []; AppendRow row])%list
    ∧ row !! 5%nat = Some (PStr "n")
    ∧ (∀ i k, (i, k) ∈ canonical_columns →
         row !! i = Some (default (PStr "") (extra_keys_object !! k))
         ∧ (extra_keys_object !! k = None → row !! i = Some (PStr "")))
    ∧ (append_row (sheet_answering (inr ())) row = inr () →
       ∃ record,
         fst (process_and_log_transaction Json.loads
                (Some (client_answering (inr (Some extra_keys_text))))
                (Some (sheet_answering (inr ()))) [] "n" [])
         = inr (PDict record, true)
         ∧ record = <["Note" := PStr "n"]> extra_keys_object
         ∧ record !! "Note" = Some (PStr "n")
         ∧ ∀ i k, (i, k) ∈ canonical_columns →
             record !! k = extra_keys_object !! k).
Proof.
  apply (proj2 (C3_defaults_in_row_not_in_record [] []) Json.loads
           (client_answering (inr (Some extra_keys_text)))
           (sheet_answering (inr ())) "n" extra_keys_text
           (Py.slice extra_keys_text 6 48)); vm_compute; reflexivity.
Defined.

(** C3, as stated, fails for the record the pipeline yields: on the
    response [{"Amount":"10"}] with the note [n] and a worksheet which
    accepts the row, the returned dict has the entries ["Amount"] and
    ["Note"] only; it has no date, platform, items or vendor, where the
    claim gives them the empty string. *)
Lemma C3_record_lacks_missing_fields_counterexample :
  ∃ record : gmap string pyval,
    fst (process_and_log_transaction Json.loads
           (Some (client_answering (inr (Some amount_only_text))))
           (Some (sheet_answering (inr ()))) [] "n" [])
    = inr (PDict record, true)
    ∧ record !! "Amount" = Some (PStr "10")
    ∧ record !! "Note" = Some (PStr "n")
    ∧ record !! "Date" = None ∧ record !! "Platform" = None
    ∧ record !! "Items" = None ∧ record !! "Vendor" = None
    ∧ record !! "Date" ≠ Some (PStr "").
Proof.
  exists (<["Note" := PStr "n"]> {["Amount" := PStr "10"]}).
  repeat split; try (vm_compute; reflexivity). by vm_compute.
Qed.

(** C4. Every run returns a pair and raises nothing. A run returns
    [True] only when every step succeeded: both handles present, a text
    from the model, a candidate, a decoded object, and an append which
    returned. A run which fails returns a dict with an ["error"] entry. A
    row reaches the worksheet only when the handles are present, the model
    answered with a text, the text has a candidate and the candidate
    decodes to an object, and then the run made exactly the request and
    that one append. When one of these earlier steps fails the run returns
    [False] at once, having made at most the request to the model; when
    the append itself raises the run returns [False] after that one
    append. *)
Theorem C4_failure_short_circuits
    json_loads GeminiClient sheet image note tr :
  ∃ payload success new,
    process_and_log_transaction json_loads GeminiClient sheet image note tr
    = (inr (payload, success), (tr ++ new)%list)
    ∧ (success = false →
       ∃ d msg, payload = PDict d ∧ d !! "error" = Some (PStr msg))
    ∧ (∀ row, AppendRow row ∈ new →
         ∃ client sh text span d,
           GeminiClient = Some client ∧ sheet = Some sh
           ∧ generate client image = inr (Some text)
           ∧ json_candidate text = Some span
           ∧ json_loads span = inr (PDict d)
           ∧ new = [generate_event image; AppendRow row])
    ∧ ((∀ client sh text span d,
          ¬ (GeminiClient = Some client ∧ sheet = Some sh
             ∧ generate client image = inr (Some text)
             ∧ json_candidate text = Some span
             ∧ json_loads span = inr (PDict d))) →
       success = false ∧ (new = [] ∨ new = [generate_event image]))
    ∧ (success = true →
       ∃ client sh text span d,
         GeminiClient = Some client ∧ sheet = Some sh
         ∧ generate client image = inr (Some text)
         ∧ json_candidate text = Some span
         ∧ json_loads span = inr (PDict d)
         ∧ append_row sh (ledger_row (<["Note" := PStr note]> d) note text)
           = inr ())
    ∧ (∀ client sh text span d e,
         GeminiClient = Some client → sheet = Some sh →
         generate client image = inr (Some text) →
         json_candidate text = Some span →
         json_loads span = inr (PDict d) →
         append_row sh (ledger_row (<["Note" := PStr note]> d) note text)
         = inl e →
         success = false
         ∧ new = [generate_event image;
                  AppendRow (ledger_row (<["Note" := PStr note]> d) note
                               text)]).
Proof.
  destruct (process_outcome json_loads GeminiClient sheet image note tr)
    as (p & b & new & Hrun & Hfail & Hrows & Hearly).
  exists p, b, new. repeat (split; [done |]). split.
  - intros ->. by apply (process_true_inv _ _ _ _ _ _ _ _ Hrun).
  - intros client sh text span d e -> -> Hg Hc Hl Ha.
    rewrite (process_append_raises _ _ _ _ _ _ _ _ _ _ Hg Hc Hl Ha) in Hrun.
    injection Hrun as _ <- ->%app_inv_head. done.
Qed.

(** An append which raises ends the run with [False]. *)
Lemma C4_failure_short_circuits_witness :
  ∃ payload success new,
    process_and_log_transaction Json.loads
      (Some (client_answering (inr (Some amount_only_text))))
      (Some (sheet_answering (inl (PyException "quota exceeded")))) [] "n" []
    = (inr (payload, success), ([] ++ new)%list)
    ∧ success = false
    ∧ new = [generate_event [];
             AppendRow (ledger_row
                          (<["Note" := PStr "n"]> {["Amount" := PStr "10"]})
                          "n" amount_only_text)].
Proof.
  destruct (C4_failure_short_circuits Json.loads
              (Some (client_answering (inr (Some amount_only_text))))
              (Some (sheet_answering (inl (PyException "quota exceeded"))))
              [] "n" [])
    as (payload & success & new & Hrun & _ & _ & _ & _ & Happend).
  exists payload, success, new. split; [exact Hrun |].
  apply (Happend (client_answering (inr (Some amount_only_text)))
           (sheet_answering (inl (PyException "quota exceeded")))
           amount_only_text amount_only_text {["Amount" := PStr "10"]}
           (PyException "quota exceeded") eq_refl eq_refl eq_refl
           ltac:(vm_compute; reflexivity) ltac:(vm_compute; reflexivity)
           eq_refl).
Defined.

(** C5. When the model answers with a text which has no opening brace, or
    no closing brace, or whose last closing brace comes before its first
    opening brace, the pipeline returns the payload
    [{"error": "Could not find JSON in Gemini response", "raw_response":
    text}] with [False]; it raises nothing, and the only external call is
    the request to the model. *)
Theorem C5_no_json_found json_loads client sh image note tr text :
  generate client image = inr (Some text) →
  Py.find "{" text = -1 ∨ Py.rfind "}" text = -1
    ∨ Py.rfind "}" text < Py.find "{" text →
  process_and_log_transaction json_loads (Some client) (Some sh) image note tr
  = (inr (PDict (<[ "error" := PStr "Could not find JSON in Gemini response" ]>
                 {[ "raw_response" := PStr text ]}), false),
     (tr ++ [generate_event image])%list).
Proof.
  intros Hg Hcond. rewrite process_run, Hg. cbn zeta.
  assert (json_candidate text = None) as ->; [| done].
  apply json_candidate_None, PyFacts.span_test_false.
  destruct Hcond as [? | [? | ?]]; [by left | by right; left | right; right; lia].
Qed.

Lemma C5_no_json_found_witness :
  process_and_log_transaction Json.loads
    (Some (client_answering (inr (Some "} no data {"))))
    (Some (sheet_answering (inr ()))) [] "n" []
  = (inr (PDict (<[ "error" := PStr "Could not find JSON in Gemini response" ]>
                 {[ "raw_response" := PStr "} no data {" ]}), false),
     [generate_event []]).
Proof.
  apply (C5_no_json_found Json.loads
           (client_answering (inr (Some "} no data {")))
           (sheet_answering (inr ())) [] "n" [] "} no data {").
  - reflexivity.
  - right; right. vm_compute. reflexivity.
Defined.

(** C6. In every successful run the returned dict has the entry ["Note"]
    with the caller's note, whatever the decoded object held under that
    key and also for the empty note, and the sixth column of the appended
    row is the caller's note. *)
Theorem C6_note_is_the_callers
    json_loads GeminiClient sheet image note tr record tr' :
  process_and_log_transaction json_loads GeminiClient sheet image note tr
  = (inr (record, true), tr') →
  ∃ d row,
    record = PDict d ∧ d !! "Note" = Some (PStr note)
    ∧ tr' = (tr ++ [generate_event image; AppendRow row])%list
    ∧ row !! 5%nat = Some (PStr note).
Proof.
  intros (client & sh & text & span & d0 & _ & _ & _ & _ & _ & -> & ->)
    %process_success.
  eexists _, _. split; [done |]. split; [apply lookup_insert_eq |].
  split; [done |]. by rewrite ledger_row_decoded.
Qed.

(** The model's own ["Note": "from model"] is replaced by the caller's
    empty note. *)
Lemma C6_note_is_the_callers_witness :
  ∃ d row,
    PDict (<["Note" := PStr ""]>
           (<["Amount" := PStr "5"]>
            (<["Note" := PStr "from model"]> {["Tip" := PInt 1]})))
    = PDict d
    ∧ d !! "Note" = Some (PStr "")
    ∧ [generate_event [];
       AppendRow (ledger_row
                    (<["Note" := PStr ""]>
                     (<["Amount" := PStr "5"]>
                      (<["Note" := PStr "from model"]> {["Tip" := PInt 1]})))
                    "" extra_keys_text)]
      = ([] ++ [generate_event []; AppendRow row])%list
    ∧ row !! 5%nat = Some (PStr "").
Proof.
  apply (C6_note_is_the_callers Json.loads
           (Some (client_answering (inr (Some extra_keys_text))))
           (Some (sheet_answering (inr ()))) [] "" []).
  vm_compute. reflexivity.
Defined.

(** C7. When the model client or the worksheet handle is missing, the
    pipeline returns a payload [{"error": msg}] with [False] and the trace
    of external calls is unchanged: no request is sent to the model and no
    row is handed to the worksheet. *)
Theorem C7_configuration_error_before_any_call
    json_loads GeminiClient sheet image note tr :
  GeminiClient = None ∨ sheet = None →
  ∃ msg,
    (msg = "Gemini client not initialized"
     ∨ msg = "Google Sheets client not initialized")
    ∧ process_and_log_transaction json_loads GeminiClient sheet image note tr
      = (inr (PDict {[ "error" := PStr msg ]}, false), tr).
Proof.
  intros H. destruct GeminiClient as [client |].
  - destruct H as [? | ->]; [done |].
    exists "Google Sheets client not initialized". split; [by right | done].
  - exists "Gemini client not initialized". split; [by left | done].
Qed.

Lemma C7_configuration_error_before_any_call_witness :
  ∃ msg,
    (msg = "Gemini client not initialized"
     ∨ msg = "Google Sheets client not initialized")
    ∧ process_and_log_transaction Json.loads
        (Some (client_answering (inr (Some amount_only_text)))) None [] "n" []
      = (inr (PDict {[ "error" := PStr msg ]}, false), []).
Proof.
  apply (C7_configuration_error_before_any_call Json.loads
           (Some (client_answering (inr (Some amount_only_text)))) None
           [] "n" []).
  right. reflexivity.
Defined.

(** C8. Every row which a run hands to the worksheet has exactly seven
    values, in this order: the entries ["Amount"], ["Date"], ["Platform"],
    ["Items"], ["Vendor"] of the decoded object (the empty string for a
    missing one), the caller's note, and the text of the model's response
    as received, before stripping. On the response
    [```json {"Amount":"250","Date":"2024-01-05","Platform":"UPI"} ```]
    with the note [lunch] the run appends the row
    [250, 2024-01-05, UPI, "", "", lunch, response]. *)
Theorem C8_row_is_seven_columns_in_order
    json_loads GeminiClient sheet image note tr :
  (∀ new row,
     snd (process_and_log_transaction json_loads GeminiClient sheet image
            note tr) = (tr ++ new)%list →
     AppendRow row ∈ new →
     ∃ client text span d,
       GeminiClient = Some client
       ∧ generate client image = inr (Some text)
       ∧ json_candidate text = Some span
       ∧ json_loads span = inr (PDict d)
       ∧ row = [ dict_get d "Amount" (PStr ""); dict_get d "Date" (PStr "");
                 dict_get d "Platform" (PStr ""); dict_get d "Items" (PStr "");
                 dict_get d "Vendor" (PStr ""); PStr note; PStr text ]
       ∧ length row = 7%nat)
  ∧ (∀ client sh,
       generate client image = inr (Some scenario1_text) →
       snd (process_and_log_transaction Json.loads (Some client) (Some sh)
              image "lunch" tr)
       = (tr ++ [generate_event image;
                 AppendRow [ PStr "250"; PStr "2024-01-05"; PStr "UPI";
                             PStr ""; PStr ""; PStr "lunch";
                             PStr scenario1_text ]])%list
       ∧ (append_row sh [ PStr "250"; PStr "2024-01-05"; PStr "UPI";
                          PStr ""; PStr ""; PStr "lunch";
                          PStr scenario1_text ] = inr () →
          ∃ record,
            fst (process_and_log_transaction Json.loads (Some client)
                   (Some sh) image "lunch" tr) = inr (record, true))).
Proof.
  split.
  - intros new row Hnew Hin.
    destruct (process_outcome json_loads GeminiClient sheet image
                note tr) as (p & b & new' & Hrun & _ & Hrows & _).
    rewrite Hrun in Hnew. cbn [snd] in Hnew. apply app_inv_head in Hnew as ->.
    destruct (Hrows row Hin) as (client & sh & text & span & d & -> & -> & Hg
                                 & Hc & Hl & Hnew).
    pose proof (process_decoded json_loads client sh image note tr text span d
                  Hg Hc Hl) as Htr.
    rewrite Hrun, Hnew in Htr. cbn [snd] in Htr.
    apply app_inv_head in Htr. injection Htr as ->.
    exists client, text, span, d. by rewrite ledger_row_decoded.
  - intros client sh Hg.
    assert (Hc : json_candidate scenario1_text
                 = Some (Py.slice scenario1_text 8 61)) by by vm_compute.
    assert (Hl : Json.loads (Py.slice scenario1_text 8 61)
                 = inr (PDict (<["Amount" := PStr "250"]>
                               (<["Date" := PStr "2024-01-05"]>
                                {["Platform" := PStr "UPI"]}))))
      by by vm_compute.
    split.
    + by rewrite (process_decoded _ _ _ _ _ _ _ _ _ Hg Hc Hl).
    + intros Ha. rewrite process_run, Hg, Hc, Hl. cbn [setitem ret fst].
      cbn zeta. rewrite ledger_row_decoded.
      change (append_row sh _) with
        (append_row sh [ PStr "250"; PStr "2024-01-05"; PStr "UPI";
                         PStr ""; PStr ""; PStr "lunch";
                         PStr scenario1_text ]).
      rewrite Ha. by eexists.
Qed.

Lemma C8_row_is_seven_columns_in_order_witness :
  snd (process_and_log_transaction Json.loads
         (Some (client_answering (inr (Some scenario1_text))))
         (Some (sheet_answering (inr ()))) [] "lunch" [])
  = [generate_event [];
     AppendRow [ PStr "250"; PStr "2024-01-05"; PStr "UPI"; PStr ""; PStr "";
                 PStr "lunch"; PStr scenario1_text ]]
  ∧ (append_row (sheet_answering (inr ()))
       [ PStr "250"; PStr "2024-01-05"; PStr "UPI"; PStr ""; PStr "";
         PStr "lunch"; PStr scenario1_text ] = inr () →
     ∃ record,
       fst (process_and_log_transaction Json.loads
              (Some (client_answering (inr (Some scenario1_text))))
              (Some (sheet_answering (inr ()))) [] "lunch" [])
       = inr (record, true)).
Proof.
  apply (proj2 (C8_row_is_seven_columns_in_order Json.loads
                  (Some (client_answering (inr (Some scenario1_text))))
                  (Some (sheet_answering (inr ()))) [] "lunch" [])
           (client_answering (inr (Some scenario1_text)))
           (sheet_answering (inr ()))).
  reflexivity.
Defined.

(** C9. The HTTP front end answers with status 400 and a body
    [{"error": msg}] when the request has no [image] file, no [note]
    field, or an [image] file with an empty name, without running the
    pipeline; with status 200 and the body [{"message": ..., "data":
    record}] when the pipeline returns [record] with [True]; and with
    status 500 and the body [{"error": ..., "details": payload}] when the
    pipeline returns [payload] with [False]. *)
Theorem C9_http_status_codes json_loads GeminiClient sheet request tr :
  ((files request !! "image" = None ∨ form request !! "note" = None
    ∨ ∃ image_file,
        files request !! "image" = Some image_file
        ∧ filename image_file = "") →
   ∃ msg,
     api_process_transaction json_loads GeminiClient sheet request tr
     = (inr (PDict {[ "error" := PStr msg ]}, 400), tr))
  ∧ (∀ image_file note image result success tr',
       files request !! "image" = Some image_file →
       form request !! "note" = Some note →
       filename image_file ≠ "" →
       read image_file = inr image →
       process_and_log_transaction json_loads GeminiClient sheet image note tr
       = (inr (result, success), tr') →
       api_process_transaction json_loads GeminiClient sheet request tr
       = (inr (if success
               then (PDict (<[ "message" :=
                                 PStr "Transaction processed successfully" ]>
                            {[ "data" := result ]}), 200)
               else (PDict (<[ "error" :=
                                 PStr "Failed to process transaction" ]>
                            {[ "details" := result ]}), 500)), tr')).
Proof.
  split.
  - unfold api_process_transaction.
    intros [Hf | [Hn | (image_file & Hf & Hname)]].
    + rewrite Hf. by eexists.
    + rewrite Hn. destruct (files request !! "image"); by eexists.
    + rewrite Hf, Hname. destruct (form request !! "note"); by eexists.
  - intros image_file note image result success tr' Hf Hn Hname Hread Hrun.
    unfold api_process_transaction. rewrite Hf, Hn, Hread.
    destruct (String.eqb_spec (filename image_file) ""); [done |].
    unfold mbind, M_bind, bind. rewrite Hrun. by destruct success.
Qed.

(** A request whose file has an empty name is refused with 400; an upload
    answered by the model with plain prose ends in 500. *)
Lemma C9_http_status_codes_witness :
  (∃ msg,
     api_process_transaction Json.loads
       (Some (client_answering (inr (Some amount_only_text))))
       (Some (sheet_answering (inr ()))) (upload_request "" (inr []) "n") []
     = (inr (PDict {[ "error" := PStr msg ]}, 400), []))
  ∧ api_process_transaction Json.loads
      (Some (client_answering (inr (Some "no data"))))
      (Some (sheet_answering (inr ()))) (upload_request "r.jpg" (inr []) "n")
      []
    = (inr (PDict (<[ "error" := PStr "Failed to process transaction" ]>
                   {[ "details" := no_json_payload "no data" ]}), 500),
       [generate_event []]).
Proof.
  split.
  - apply (proj1 (C9_http_status_codes Json.loads
                    (Some (client_answering (inr (Some amount_only_text))))
                    (Some (sheet_answering (inr ())))
                    (upload_request "" (inr []) "n") [])).
    right; right. eexists. split; reflexivity.
  - apply (proj2 (C9_http_status_codes Json.loads
                    (Some (client_answering (inr (Some "no data"))))
                    (Some (sheet_answering (inr ())))
                    (upload_request "r.jpg" (inr []) "n") [])
             {| filename := "r.jpg"; read := inr [] |} "n" []
             (no_json_payload "no data") false [generate_event []]);
      try reflexivity.
    intros [=].
Defined.

(** C10. The dict returned by a successful run is the decoded object of
    the candidate with the entry ["Note"] set to the caller's note and
    nothing else changed: every other key, an extra one as well as one of
    the five column keys, is in the returned dict exactly when it is in
    the decoded object, with the same value. The HTTP front end returns
    this dict as ["data"]. *)
Theorem C10_returned_record_is_decoded_object
    json_loads GeminiClient sheet image note tr record tr' :
  process_and_log_transaction json_loads GeminiClient sheet image note tr
  = (inr (record, true), tr') →
  ∃ client text span d0 d,
    GeminiClient = Some client
    ∧ generate client image = inr (Some text)
    ∧ json_candidate text = Some span
    ∧ json_loads span = inr (PDict d0)
    ∧ record = PDict d
    ∧ d = <["Note" := PStr note]> d0
    ∧ (∀ k, k ≠ "Note" → d !! k = d0 !! k)
    ∧ (∀ request image_file,
         files request !! "image" = Some image_file →
         form request !! "note" = Some note →
         filename image_file ≠ "" →
         read image_file = inr image →
         api_process_transaction json_loads GeminiClient sheet request tr
         = (inr (PDict (<[ "message" :=
                             PStr "Transaction processed successfully" ]>
                        {[ "data" := record ]}), 200), tr')).
Proof.
  intros Hrun.
  destruct (process_success _ _ _ _ _ _ _ _ Hrun)
    as (client & sh & text & span & d0 & HG & HS & Hg & Hc & Hl & Hrec & Htr).
  exists client, text, span, d0, (<["Note" := PStr note]> d0).
  repeat (split; [done |]).
  split; [intros k Hk; by rewrite lookup_insert_ne |].
  intros request image_file Hfile Hnote Hname Hread.
  unfold api_process_transaction. rewrite Hfile, Hnote, Hread.
  destruct (String.eqb_spec (filename image_file) ""); [done |].
  unfold mbind, M_bind, bind. by rewrite Hrun.
Qed.

(** The model's extra key ["Tip"] is returned, and no ["Date"]. *)
Lemma C10_returned_record_is_decoded_object_witness :
  ∃ client text span d0 d,
    Some (client_answering (inr (Some extra_keys_text))) = Some client
    ∧ generate client [] = inr (Some text)
    ∧ json_candidate text = Some span
    ∧ Json.loads span = inr (PDict d0)
    ∧ PDict (<["Note" := PStr "n"]>
             (<["Amount" := PStr "5"]>
              (<["Note" := PStr "from model"]> {["Tip" := PInt 1]})))
      = PDict d
    ∧ d = <["Note" := PStr "n"]> d0
    ∧ (∀ k, k ≠ "Note" → d !! k = d0 !! k)
    ∧ (∀ request image_file,
         files request !! "image" = Some image_file →
         form request !! "note" = Some "n" →
         filename image_file ≠ "" →
         read image_file = inr [] →
         api_process_transaction Json.loads
           (Some (client_answering (inr (Some extra_keys_text))))
           (Some (sheet_answering (inr ()))) request []
         = (inr (PDict (<[ "message" :=
                             PStr "Transaction processed successfully" ]>
                        {[ "data" :=
                             PDict (<["Note" := PStr "n"]>
                                    (<["Amount" := PStr "5"]>
                                     (<["Note" := PStr "from model"]>
                                      {["Tip" := PInt 1]}))) ]}), 200),
            [generate_event [];
             AppendRow [ PStr "5"; PStr ""; PStr ""; PStr ""; PStr "";
                         PStr "n"; PStr extra_keys_text ]])).
Proof.
  apply (C10_returned_record_is_decoded_object Json.loads
           (Some (client_answering (inr (Some extra_keys_text))))
           (Some (sheet_answering (inr ()))) [] "n" []).
  vm_compute. reflexivity.
Defined.

(** * Further properties of the code *)

(** ** The pipeline *)

(** X1. A run returns [True] exactly when both handles are present, the model
    answered with a text, the text has a candidate, the candidate decodes
    to an object, and the worksheet accepted the row. *)
Theorem process_succeeds_iff json_loads GeminiClient sheet image note tr :
  (∃ record tr',
     process_and_log_transaction json_loads GeminiClient sheet image note tr
     = (inr (record, true), tr'))
  ↔ ∃ client sh text span d,
      GeminiClient = Some client ∧ sheet = Some sh
      ∧ generate client image = inr (Some text)
      ∧ json_candidate text = Some span
      ∧ json_loads span = inr (PDict d)
      ∧ append_row sh (ledger_row (<["Note" := PStr note]> d) note text)
        = inr ().
Proof.
  split.
  - intros (record & tr' & Hrun).
    destruct GeminiClient as [client |]; [destruct sheet as [sh |] |];
      [| done | done].
    rewrite process_run in Hrun. cbn zeta in Hrun.
    destruct (generate client image) as [e | [text |]] eqn:Hg; [done | | done].
    destruct (json_candidate text) as [span |] eqn:Hc; [| done].
    destruct (json_loads span) as [e | v] eqn:Hl; [done |].
    destruct v as [| | | | | | d0]; try done. cbn [setitem ret fst] in Hrun.
    destruct (append_row sh _) as [e | []] eqn:Ha; [done |].
    by exists client, sh, text, span, d0.
  - intros (client & sh & text & span & d & -> & -> & Hg & Hc & Hl & Ha).
    eexists _, _. rewrite process_run, Hg, Hc, Hl. cbn [setitem ret fst].
    cbn zeta. by rewrite Ha.
Qed.

(** X2. Whatever happens, a run makes no call, or the one request to the
    model, or the request followed by one append: never a second request,
    never a second append, never an append without the request before it.
    It makes no call exactly when a handle is missing. *)
Theorem process_calls_request_then_append
    json_loads GeminiClient sheet image note tr :
  ∃ new,
    snd (process_and_log_transaction json_loads GeminiClient sheet image note
           tr) = (tr ++ new)%list
    ∧ (new = [] ∨ new = [generate_event image]
       ∨ ∃ row, new = [generate_event image; AppendRow row])
    ∧ (new = [] ↔ GeminiClient = None ∨ sheet = None).
Proof.
  destruct GeminiClient as [client |]; [destruct sheet as [sh |] |].
  2,3: exists []; rewrite app_nil_r; split; [done |]; split; [by left |];
       split; auto.
  rewrite process_run. cbn zeta.
  assert (Hne : ∀ l : list event, [] = (generate_event image :: l) ↔
                  Some client = None ∨ Some sh = None)
    by (intros l; split; [done | by intros [|]]).
  destruct (generate client image) as [e | [text |]];
    [exists [generate_event image]; split; [done |];
     split; [by right; left | split; [done | by intros [|]]] | |
     exists [generate_event image]; split; [done |];
     split; [by right; left | split; [done | by intros [|]]]].
  destruct (json_candidate text) as [span |];
    [| exists [generate_event image]; split; [done |];
       split; [by right; left | split; [done | by intros [|]]]].
  destruct (json_loads span) as [e | v];
    [exists [generate_event image]; split; [done |];
     split; [by right; left | split; [done | by intros [|]]] |].
  destruct v as [| | | | | | d0];
    try (exists [generate_event image]; split; [done |];
         split; [by right; left | split; [done | by intros [|]]]).
  cbn [setitem ret fst].
  eexists [generate_event image; AppendRow _]. rewrite <- app_assoc.
  split; [by destruct (append_row sh _) |].
  split; [right; right; by eexists | split; [done | by intros [|]]].
Qed.

(** X3. When the request to the model raises, or its response has no text,
    the run returns the catch-all payload with the error's text and hands
    nothing to the worksheet. *)
Theorem request_error_is_reported json_loads client sh image note tr e :
  generate client image = inl e
  ∨ (generate client image = inr None
     ∧ e = PyException "'NoneType' object has no attribute 'strip'") →
  process_and_log_transaction json_loads (Some client) (Some sh) image note tr
  = (inr (PDict (<[ "error" := PStr "Gemini API request failed" ]>
                 {[ "details" := PStr (str_exc e) ]}), false),
     (tr ++ [generate_event image])%list).
Proof.
  intros [Hg | [Hg ->]]; by rewrite process_run, Hg.
Qed.

Lemma request_error_is_reported_witness :
  process_and_log_transaction Json.loads (Some (client_answering (inr None)))
    (Some (sheet_answering (inr ()))) [] "n" []
  = (inr (PDict (<[ "error" := PStr "Gemini API request failed" ]>
                 {[ "details" :=
                      PStr "'NoneType' object has no attribute 'strip'" ]}),
          false),
     [generate_event []]).
Proof.
  apply (request_error_is_reported Json.loads (client_answering (inr None))
           (sheet_answering (inr ())) [] "n" []
           (PyException "'NoneType' object has no attribute 'strip'")).
  right. split; reflexivity.
Defined.

(** X4. The inner handler also guards the append: when the worksheet raises a
    JSON decode error, after the candidate was decoded and the row handed
    over, the run reports a parse failure of the model's response. *)
Theorem append_decode_error_reported_as_parse_failure
    json_loads client sh image note tr text span d msg :
  generate client image = inr (Some text) →
  json_candidate text = Some span →
  json_loads span = inr (PDict d) →
  append_row sh (ledger_row (<["Note" := PStr note]> d) note text)
  = inl (JSONDecodeError msg) →
  process_and_log_transaction json_loads (Some client) (Some sh) image note tr
  = (inr (PDict (<[ "error" := PStr "Failed to parse Gemini JSON response" ]>
                 (<[ "details" := PStr msg ]>
                  {[ "raw_response" := PStr text ]})), false),
     (tr ++ [generate_event image;
             AppendRow (ledger_row (<["Note" := PStr note]> d) note text)])%list).
Proof.
  intros Hg Hc Hl Ha. rewrite process_run, Hg, Hc, Hl. cbn [setitem ret fst].
  cbn zeta. by rewrite Ha, <- app_assoc.
Qed.

Lemma append_decode_error_reported_as_parse_failure_witness :
  process_and_log_transaction Json.loads
    (Some (client_answering (inr (Some amount_only_text))))
    (Some (sheet_answering (inl (JSONDecodeError "Expecting value"))))
    [] "n" []
  = (inr (PDict (<[ "error" := PStr "Failed to parse Gemini JSON response" ]>
                 (<[ "details" := PStr "Expecting value" ]>
                  {[ "raw_response" := PStr amount_only_text ]})), false),
     [generate_event [];
      AppendRow (ledger_row (<["Note" := PStr "n"]> {["Amount" := PStr "10"]})
                   "n" amount_only_text)]).
Proof.
  apply (append_decode_error_reported_as_parse_failure Json.loads
           (client_answering (inr (Some amount_only_text)))
           (sheet_answering (inl (JSONDecodeError "Expecting value")))
           [] "n" [] amount_only_text amount_only_text
           {["Amount" := PStr "10"]} "Expecting value"
           eq_refl ltac:(vm_compute; reflexivity)
           ltac:(vm_compute; reflexivity) eq_refl).
Defined.

(** X5. The image is not inspected: two images for which the model gives the
    same answer give the same result, and the empty image is sent like any
    other. *)
Theorem result_depends_on_image_through_model_only
    json_loads client sh image1 image2 note tr :
  generate client image1 = generate client image2 →
  fst (process_and_log_transaction json_loads (Some client) (Some sh) image1
         note tr)
  = fst (process_and_log_transaction json_loads (Some client) (Some sh) image2
           note tr)
  ∧ ∃ rest,
      snd (process_and_log_transaction json_loads (Some client) (Some sh) []
             note tr) = (tr ++ generate_event [] :: rest)%list.
Proof.
  intros Hg. split.
  - rewrite !process_run, Hg. cbn zeta.
    destruct (generate client image2) as [e | [text |]]; try done.
    destruct (json_candidate text) as [span |]; [| done].
    destruct (json_loads span) as [e | v]; [done |].
    destruct (fst (setitem v "Note" (PStr note) _)) eqn:E1,
      (fst (setitem v "Note" (PStr note) (tr ++ [generate_event image2])%list))
        eqn:E2; destruct v; cbn in E1, E2; try done; simplify_eq; try done.
    by destruct (append_row sh _).
  - rewrite process_run. cbn zeta.
    destruct (generate client []) as [e | [text |]]; try by exists [].
    destruct (json_candidate text) as [span |]; [| by exists []].
    destruct (json_loads span) as [e | v]; [by exists [] |].
    destruct v; cbn [setitem ret raise fst]; try by exists [].
    rewrite <- app_assoc. destruct (append_row sh _); by eexists [_].
Qed.

Lemma result_depends_on_image_through_model_only_witness :
  fst (process_and_log_transaction Json.loads
         (Some (client_answering (inr (Some amount_only_text))))
         (Some (sheet_answering (inr ()))) [] "n" [])
  = fst (process_and_log_transaction Json.loads
           (Some (client_answering (inr (Some amount_only_text))))
           (Some (sheet_answering (inr ()))) [Byte.x00] "n" [])
  ∧ ∃ rest,
      snd (process_and_log_transaction Json.loads
             (Some (client_answering (inr (Some amount_only_text))))
             (Some (sheet_answering (inr ()))) [] "n" [])
      = ([] ++ generate_event [] :: rest)%list.
Proof.
  apply (result_depends_on_image_through_model_only Json.loads
           (client_answering (inr (Some amount_only_text)))
           (sheet_answering (inr ())) [] [Byte.x00] "n" []).
  reflexivity.
Defined.

(** X6. A failed run names its failure with one of five fixed texts. *)
Theorem failure_kinds_are_five
    json_loads GeminiClient sheet image note tr payload tr' :
  process_and_log_transaction json_loads GeminiClient sheet image note tr
  = (inr (payload, false), tr') →
  ∃ d kind,
    payload = PDict d ∧ d !! "error" = Some (PStr kind)
    ∧ kind ∈ [ "Gemini client not initialized";
               "Google Sheets client not initialized";
               "Gemini API request failed";
               "Could not find JSON in Gemini response";
               "Failed to parse Gemini JSON response" ].
Proof.
  assert (Hreq : ∀ e, ∃ d kind,
    request_failed_payload e = PDict d ∧ d !! "error" = Some (PStr kind)
    ∧ kind ∈ [ "Gemini client not initialized";
               "Google Sheets client not initialized";
               "Gemini API request failed";
               "Could not find JSON in Gemini response";
               "Failed to parse Gemini JSON response" ]).
  { intros e. eexists _, _. split; [done |].
    split; [by rewrite lookup_insert_eq | repeat constructor]. }
  assert (Herr : ∀ e text, ∃ d kind,
    (if isinstance_JSONDecodeError e then malformed_json_payload e text
     else request_failed_payload e) = PDict d
    ∧ d !! "error" = Some (PStr kind)
    ∧ kind ∈ [ "Gemini client not initialized";
               "Google Sheets client not initialized";
               "Gemini API request failed";
               "Could not find JSON in Gemini response";
               "Failed to parse Gemini JSON response" ]).
  { intros e text. destruct e; cbn; [| apply Hreq].
    eexists _, _. split; [done |].
    split; [by rewrite lookup_insert_eq | repeat constructor]. }
  destruct GeminiClient as [client |]; [destruct sheet as [sh |] |].
  2,3: intros [= <- <-]; eexists _, _; split; [done |];
       split; [by rewrite lookup_singleton_eq | repeat constructor].
  rewrite process_run. cbn zeta.
  destruct (generate client image) as [e | [text |]];
    [intros [= <- <-]; apply Hreq | | intros [= <- <-]; apply Hreq].
  destruct (json_candidate text) as [span |].
  2: { intros [= <- <-]. eexists _, _. split; [done |].
       split; [by rewrite lookup_insert_eq | repeat constructor]. }
  destruct (json_loads span) as [e | v]; [intros [= <- <-]; apply Herr |].
  destruct v; cbn [setitem ret raise fst];
    try (intros [= <- <-]; apply Hreq).
  destruct (append_row sh _); [intros [= <- <-]; apply Herr | done].
Qed.

Lemma failure_kinds_are_five_witness :
  ∃ d kind,
    no_json_payload "no data" = PDict d ∧ d !! "error" = Some (PStr kind)
    ∧ kind ∈ [ "Gemini client not initialized";
               "Google Sheets client not initialized";
               "Gemini API request failed";
               "Could not find JSON in Gemini response";
               "Failed to parse Gemini JSON response" ].
Proof.
  apply (failure_kinds_are_five Json.loads
           (Some (client_answering (inr (Some "no data"))))
           (Some (sheet_answering (inr ()))) [] "n" [] _
           [generate_event []]).
  reflexivity.
Defined.

(** ** The candidate *)

(** X7. A candidate starts with an opening brace and ends with a closing
    brace, and lies in the response with no opening brace before it and no
    closing brace after it. *)
Theorem candidate_is_braced_and_outermost text candidate :
  json_candidate text = Some candidate →
  ∃ pre mid suf,
    candidate = String "{" (mid +:+ "}")
    ∧ text = pre +:+ candidate +:+ suf
    ∧ Py.contains "{" pre = false ∧ Py.contains "}" suf = false.
Proof.
  intros Hc.
  destruct (Py.span_test text) eqn:E;
    [| apply json_candidate_None in E; congruence].
  destruct (span_test_decompose text E) as (pre & mid & suf & -> & Hpre & Hsuf).
  rewrite json_candidate_span in Hc by done. injection Hc as <-.
  exists pre, mid, suf. repeat split; try done.
  f_equal. rewrite PyFacts.app_String. f_equal.
  by rewrite PyFacts.append_assoc, PyFacts.app_String, PyFacts.app_empty.
Qed.

Lemma candidate_is_braced_and_outermost_witness :
  ∃ pre mid suf,
    "{1} and {2}" = String "{" (mid +:+ "}")
    ∧ "Here: {1} and {2}." = pre +:+ "{1} and {2}" +:+ suf
    ∧ Py.contains "{" pre = false ∧ Py.contains "}" suf = false.
Proof.
  apply (candidate_is_braced_and_outermost "Here: {1} and {2}." "{1} and {2}").
  reflexivity.
Defined.

(** X8. Stripping the response beforehand changes nothing for the candidate. *)
Theorem candidate_of_stripped_text text :
  json_candidate (Py.strip text) = json_candidate text.
Proof.
  rewrite (json_candidate_slice (Py.strip text)), PyFacts.span_test_strip.
  destruct (Py.span_test text) eqn:E;
    [| symmetry; by apply json_candidate_None].
  destruct (span_test_decompose text E) as (pre & mid & suf & -> & Hpre & Hsuf).
  rewrite json_candidate_span by done.
  rewrite <- (json_candidate_span (Py.lstrip pre) mid (Py.rstrip suf))
    by (by apply PyFacts.contains_lstrip || by apply PyFacts.contains_rstrip).
  assert (Hs : Py.strip (pre +:+ String "{" (mid +:+ String "}" suf))
               = Py.lstrip pre +:+ String "{" (mid +:+ String "}" (Py.rstrip suf))).
  { unfold Py.strip. rewrite PyFacts.lstrip_app by done.
    change (String "{" (mid +:+ String "}" suf))
      with (String "{" mid +:+ String "}" suf).
    rewrite <- PyFacts.append_assoc, PyFacts.rstrip_app by done.
    by rewrite PyFacts.append_assoc. }
  rewrite Hs, (json_candidate_slice (_ +:+ _)).
  assert (Py.span_test
            (Py.lstrip pre +:+ String "{" (mid +:+ String "}" (Py.rstrip suf)))
          = true) as ->; [| done].
  rewrite <- Hs, PyFacts.span_test_strip. done.
Qed.

(** A candidate starts with an opening brace. *)
Lemma json_candidate_braced text candidate :
  json_candidate text = Some candidate →
  ∃ mid, candidate = String "{" (mid +:+ "}").
Proof.
  intros Hc.
  destruct (Py.span_test text) eqn:E;
    [| apply json_candidate_None in E; congruence].
  destruct (span_test_decompose text E) as (pre & mid & suf & -> & Hpre & Hsuf).
  rewrite json_candidate_span in Hc by done. injection Hc as <-.
  by exists mid.
Qed.

(** The stand-in decoder gives an object on a text which starts with an
    opening brace, when it gives a value. *)
Lemma Json_loads_brace_gives_object s v :
  Json.loads (String "{" s) = inr v → ∃ d, v = PDict d.
Proof.
  unfold Json.loads, Json.decode.
  change (Json.skip_ws (String "{" s)) with (String "{" s).
  set (n := String.length _). cbn [Json.scan_once].
  change (Ascii.eqb "{" Json.quote) with false.
  change (Ascii.eqb "{" "{") with true. cbv iota.
  destruct (Json.skip_ws s) as [| [[] [] [] [] [] [] [] []] r2];
    repeat case_match; intros; simplify_eq; eauto.
Qed.

(** X9. For a decoder which gives nothing but objects on texts that start
    with an opening brace, as a JSON decoder does, a candidate which
    decodes is an object and the run goes on to the append: the assignment
    of the note never meets a value which is not a dict. *)
Theorem decoded_candidate_reaches_append
    json_loads client sh image note tr text span v :
  (∀ s w, json_loads (String "{" s) = inr w → ∃ d, w = PDict d) →
  generate client image = inr (Some text) →
  json_candidate text = Some span →
  json_loads span = inr v →
  ∃ d,
    v = PDict d
    ∧ snd (process_and_log_transaction json_loads (Some client) (Some sh)
             image note tr)
      = (tr ++ [generate_event image;
                AppendRow (ledger_row (<["Note" := PStr note]> d) note
                             text)])%list.
Proof.
  intros Hobj Hg Hc Hl.
  destruct (json_candidate_braced text span Hc) as [mid ->].
  destruct (Hobj _ _ Hl) as [d ->]. exists d. split; [done |].
  by apply (process_decoded _ _ _ _ _ _ text (String "{" (mid +:+ "}")) d).
Qed.

Lemma decoded_candidate_reaches_append_witness :
  ∃ d,
    PDict {["Amount" := PStr "10"]} = PDict d
    ∧ snd (process_and_log_transaction Json.loads
             (Some (client_answering (inr (Some amount_only_text))))
             (Some (sheet_answering (inr ()))) [] "n" [])
      = ([] ++ [generate_event [];
                AppendRow (ledger_row (<["Note" := PStr "n"]> d) "n"
                             amount_only_text)])%list.
Proof.
  apply (decoded_candidate_reaches_append Json.loads
           (client_answering (inr (Some amount_only_text)))
           (sheet_answering (inr ())) [] "n" [] amount_only_text
           amount_only_text (PDict {["Amount" := PStr "10"]})
           Json_loads_brace_gives_object eq_refl);
    vm_compute; reflexivity.
Defined.

(** ** The HTTP front end *)

(** X10. When reading the uploaded file raises, the front end answers 400 with
    the error's text and the pipeline is not run. *)
Theorem api_unreadable_image_is_400
    json_loads GeminiClient sheet request tr image_file note e :
  files request !! "image" = Some image_file →
  form request !! "note" = Some note →
  filename image_file ≠ "" →
  read image_file = inl e →
  api_process_transaction json_loads GeminiClient sheet request tr
  = (inr (PDict (<[ "error" := PStr "Could not read image file" ]>
                 {[ "details" := PStr (str_exc e) ]}), 400), tr).
Proof.
  intros Hf Hn Hname Hread. unfold api_process_transaction.
  rewrite Hf, Hn, Hread. by destruct (String.eqb_spec (filename image_file) "").
Qed.

Lemma api_unreadable_image_is_400_witness :
  api_process_transaction Json.loads
    (Some (client_answering (inr (Some amount_only_text))))
    (Some (sheet_answering (inr ())))
    (upload_request "r.jpg" (inl (PyException "closed file")) "n") []
  = (inr (PDict (<[ "error" := PStr "Could not read image file" ]>
                 {[ "details" := PStr "closed file" ]}), 400), []).
Proof.
  apply (api_unreadable_image_is_400 Json.loads _ _
           (upload_request "r.jpg" (inl (PyException "closed file")) "n") []
           {| filename := "r.jpg"; read := inl (PyException "closed file") |}
           "n" (PyException "closed file")); try reflexivity.
  intros [=].
Defined.

(** X11. The front end raises nothing and answers with 400, 500 or 200. With
    400 no service was called. With 200 the request had a readable image
    and a note, the run made the request and one append, the sixth column
    of the row and the ["Note"] of the returned data are the note of the
    form, also when it is empty. *)
Theorem api_answers_400_500_or_200
    json_loads GeminiClient sheet request tr :
  ∃ body status new,
    api_process_transaction json_loads GeminiClient sheet request tr
    = (inr (body, status), (tr ++ new)%list)
    ∧ (status = 400 ∧ new = []
       ∨ status = 500
         ∧ (∃ payload,
              body = PDict (<[ "error" := PStr "Failed to process transaction" ]>
                            {[ "details" := payload ]}))
       ∨ status = 200
         ∧ ∃ image_file note image row d,
             files request !! "image" = Some image_file
             ∧ form request !! "note" = Some note
             ∧ read image_file = inr image
             ∧ new = [generate_event image; AppendRow row]
             ∧ row !! 5%nat = Some (PStr note)
             ∧ d !! "Note" = Some (PStr note)
             ∧ body = PDict (<[ "message" :=
                                  PStr "Transaction processed successfully" ]>
                             {[ "data" := PDict d ]})).
Proof.
  unfold api_process_transaction.
  destruct (files request !! "image") as [image_file |] eqn:Hf;
    [| eexists _, _, []; rewrite app_nil_r; split; [done | by left]].
  destruct (form request !! "note") as [note |] eqn:Hn;
    [| eexists _, _, []; rewrite app_nil_r; split; [done | by left]].
  destruct (String.eqb_spec (filename image_file) "");
    [eexists _, _, []; rewrite app_nil_r; split; [done | by left] |].
  destruct (read image_file) as [e | image] eqn:Hread;
    [eexists _, _, []; rewrite app_nil_r; split; [done | by left] |].
  unfold mbind, M_bind, bind.
  destruct (process_outcome json_loads GeminiClient sheet image note tr)
    as (p & b & new & Hrun & _ & _ & _).
  rewrite Hrun. destruct b.
  - destruct (process_success _ _ _ _ _ _ _ _ Hrun)
      as (client & sh & text & span & d0 & _ & _ & _ & _ & _ & -> & Htr).
    apply app_inv_head in Htr as ->.
    eexists _, _, _. split; [done |]. right; right. split; [done |].
    eexists image_file, note, image, _, _. repeat (split; [done |]).
    split; [apply lookup_insert_eq | done].
  - eexists _, _, _. split; [done |]. right; left. split; [done | by eexists].
Qed.

(** ** The Telegram front end *)

(** Every run returns a dict which is not empty: one with an ["error"]
    entry on failure, the decoded object with the note on success. *)
Lemma process_returns_dict json_loads GeminiClient sheet image note tr :
  ∃ d success new,
    process_and_log_transaction json_loads GeminiClient sheet image note tr
    = (inr (PDict d, success), (tr ++ new)%list)
    ∧ d ≠ ∅
    ∧ (success = false → ∃ kind, d !! "error" = Some (PStr kind))
    ∧ (success = true →
       ∃ d0 text,
         d = <["Note" := PStr note]> d0
         ∧ new = [generate_event image;
                  AppendRow (ledger_row (<["Note" := PStr note]> d0) note
                               text)]).
Proof.
  destruct (process_outcome json_loads GeminiClient sheet image note tr)
    as (p & b & new & Hrun & Hfail & _ & _).
  destruct b.
  - destruct (process_success _ _ _ _ _ _ _ _ Hrun)
      as (client & sh & text & span & d0 & _ & _ & _ & _ & _ & -> & Htr).
    apply app_inv_head in Htr as ->.
    eexists _, true, _. split; [done |]. split; [apply insert_non_empty |].
    split; [done |]. intros _. by eexists _, _.
  - destruct (Hfail eq_refl) as (d & kind & -> & Hkind).
    exists d, false, new. split; [done |].
    split; [intros ->; by rewrite lookup_empty in Hkind |].
    split; [intros _; by exists kind | done].
Qed.

(** The reply of the handler once the image is downloaded and the
    pipeline has returned. *)
Lemma handle_image_replies
    json_loads GeminiClient sheet b py_str update msg img w d success tr' :
  message update = Some msg →
  download_image update = inr img →
  process_and_log_transaction json_loads GeminiClient sheet img
    (caption_or_default msg) (calls w) = (inr (PDict d, success), tr') →
  d ≠ ∅ →
  handle_image json_loads GeminiClient sheet (Some b) py_str update w
  = let text :=
      if success
      then "Logged: " +:+ py_str (dict_get d "Amount" (PStr "N/A"))
           +:+ " on " +:+ py_str (dict_get d "Platform" (PStr "N/A"))
           +:+ " (" +:+ py_str (dict_get d "Date" (PStr "N/A"))
           +:+ "). Note: " +:+ caption_or_default msg
      else "Error processing image: "
           +:+ py_str (dict_get d "error" (PStr "Unknown error")) in
    (reply_text msg text,
     {| calls := tr'; replies := (replies w ++ [text])%list |}).
Proof.
  intros Hmsg Hdl Hrun Hne. unfold handle_image. rewrite Hdl.
  unfold message_attr, mbind, T_bind, tbind, tlift, run_pipeline, reply,
    message_attr.
  rewrite Hmsg, Hrun. cbn [py_truthy obj_get].
  rewrite (bool_decide_eq_false_2 _ Hne). by destruct success.
Qed.

(** X12. Without the bot, or when the message has no photo, or when fetching or
    downloading the largest photo raises, the handler sends one fixed
    reply and calls neither the model nor the worksheet. *)
Theorem handler_declines_without_bot_or_image
    json_loads GeminiClient sheet bot py_str update msg w :
  message update = Some msg →
  bot = None ∨ photo msg = []
  ∨ (∃ largest e,
       last (photo msg) = Some largest
       ∧ (get_file largest = inl e
          ∨ ∃ photo_file,
              get_file largest = inr photo_file
              ∧ download_as_bytearray photo_file = inl e)) →
  handle_image json_loads GeminiClient sheet bot py_str update w
  = let text :=
      match bot with
      | None => "Telegram bot is currently unavailable."
      | Some _ => "Sorry, I couldn't download the image."
      end in
    (reply_text msg text,
     {| calls := calls w; replies := (replies w ++ [text])%list |}).
Proof.
  intros Hmsg Hcase. unfold handle_image.
  destruct bot as [b |].
  - assert (∃ e, download_image update = inl e) as [e ->].
    { unfold download_image, message_attr. rewrite Hmsg.
      destruct Hcase as [? | [-> | (largest & e & -> & Hget)]];
        [done | by eexists |].
      destruct Hget as [-> | (photo_file & -> & ->)]; by eexists. }
    unfold reply, message_attr. by rewrite Hmsg.
  - rewrite Hmsg. unfold reply, message_attr. by rewrite Hmsg.
Qed.

Lemma handler_declines_without_bot_or_image_witness :
  handle_image Json.loads
    (Some (client_answering (inr (Some amount_only_text))))
    (Some (sheet_answering (inr ()))) (Some (TelegramBot "t")) str_of_strings
    (photo_update (inl (PyException "timed out")) None (inr ())) fresh_world
  = (inr (),
     {| calls := [];
        replies := ["Sorry, I couldn't download the image."] |}).
Proof.
  apply (handler_declines_without_bot_or_image Json.loads _ _
           (Some (TelegramBot "t")) str_of_strings
           (photo_update (inl (PyException "timed out")) None (inr ()))
           {| photo := [ {| get_file :=
                              inr {| download_as_bytearray :=
                                       inl (PyException "timed out") |} |} ];
              caption := None;
              reply_text := λ _, inr () |}
           fresh_world eq_refl).
  right; right. eexists _, (PyException "timed out"). split; [reflexivity |].
  right. eexists. split; reflexivity.
Defined.

(** X13. An update without a message makes the handler raise when the bot is
    present: the failure to read the photo is caught, the reply to it is
    not. Nothing is sent and no service is called. Without the bot the
    handler returns silently. *)
Theorem handler_raises_without_message
    json_loads GeminiClient sheet bot py_str update w :
  message update = None →
  handle_image json_loads GeminiClient sheet bot py_str update w
  = (match bot with
     | Some _ =>
         inl (PyException "'NoneType' object has no attribute 'reply_text'")
     | None => inr ()
     end, w).
Proof.
  intros Hmsg. unfold handle_image, download_image, reply, message_attr.
  rewrite Hmsg. by destruct bot.
Qed.

Lemma handler_raises_without_message_witness :
  handle_image Json.loads None None (Some (TelegramBot "t")) str_of_strings
    {| message := None |} fresh_world
  = (inl (PyException "'NoneType' object has no attribute 'reply_text'"),
     fresh_world).
Proof.
  apply (handler_raises_without_message Json.loads None None
           (Some (TelegramBot "t")) str_of_strings {| message := None |}
           fresh_world).
  reflexivity.
Defined.

(** X14. The note of a photo is its caption, and ["Sent via Telegram"] when the
    caption is missing or empty: the handler makes the calls of the
    pipeline run with that note, and a row it appends has it in the sixth
    column. *)
Theorem handler_note_is_caption_or_default
    json_loads GeminiClient sheet b py_str update msg img w :
  message update = Some msg →
  download_image update = inr img →
  ∃ note,
    (caption msg = None ∨ caption msg = Some "" → note = "Sent via Telegram")
    ∧ (∀ c, caption msg = Some c → c ≠ "" → note = c)
    ∧ calls (snd (handle_image json_loads GeminiClient sheet (Some b) py_str
                    update w))
      = snd (process_and_log_transaction json_loads GeminiClient sheet img
               note (calls w))
    ∧ ∀ new row,
        calls (snd (handle_image json_loads GeminiClient sheet (Some b)
                      py_str update w)) = (calls w ++ new)%list →
        AppendRow row ∈ new → row !! 5%nat = Some (PStr note).
Proof.
  intros Hmsg Hdl. exists (caption_or_default msg).
  split; [unfold caption_or_default; by intros [-> | ->] |].
  split.
  { intros c Hc Hne. unfold caption_or_default. rewrite Hc.
    by destruct (String.eqb_spec c ""). }
  destruct (process_returns_dict json_loads GeminiClient sheet img
              (caption_or_default msg) (calls w))
    as (d & success & new & Hrun & Hne & _ & Hok).
  rewrite (handle_image_replies _ _ _ _ _ _ _ _ _ _ _ _ Hmsg Hdl Hrun Hne).
  cbn [snd calls]. rewrite Hrun. split; [done |].
  intros new' row ->%app_inv_head Hin.
  destruct (process_outcome json_loads GeminiClient sheet img
              (caption_or_default msg) (calls w))
    as (p & s & new'' & Hrun' & _ & Hrows & _).
  rewrite Hrun in Hrun'. injection Hrun' as _ <- ->%app_inv_head.
  destruct success.
  - destruct (Hok eq_refl) as (d0 & text & -> & ->).
    apply elem_of_cons in Hin as [[=] | Hin].
    apply list_elem_of_singleton in Hin as [= ->].
    by rewrite ledger_row_decoded.
  - destruct (Hrows row Hin) as (client & sh & text & span & d0 & -> & -> & Hg
                                 & Hc & Hl & ->).
    pose proof (process_decoded json_loads client sh img
                  (caption_or_default msg) (calls w) text span d0 Hg Hc Hl)
      as Htr.
    rewrite Hrun in Htr. cbn [snd] in Htr. apply app_inv_head in Htr.
    injection Htr as ->. by rewrite ledger_row_decoded.
Qed.

Lemma handler_note_is_caption_or_default_witness :
  ∃ note,
    (Some "" = None ∨ Some "" = Some "" → note = "Sent via Telegram")
    ∧ (∀ c, Some "" = Some c → c ≠ "" → note = c)
    ∧ calls (snd (handle_image Json.loads
                    (Some (client_answering (inr (Some amount_only_text))))
                    (Some (sheet_answering (inr ())))
                    (Some (TelegramBot "t")) str_of_strings
                    (photo_update (inr []) (Some "") (inr ())) fresh_world))
      = snd (process_and_log_transaction Json.loads
               (Some (client_answering (inr (Some amount_only_text))))
               (Some (sheet_answering (inr ()))) [] note (calls fresh_world))
    ∧ ∀ new row,
        calls (snd (handle_image Json.loads
                      (Some (client_answering (inr (Some amount_only_text))))
                      (Some (sheet_answering (inr ())))
                      (Some (TelegramBot "t")) str_of_strings
                      (photo_update (inr []) (Some "") (inr ())) fresh_world))
        = (calls fresh_world ++ new)%list →
        AppendRow row ∈ new → row !! 5%nat = Some (PStr note).
Proof.
  apply (handler_note_is_caption_or_default Json.loads _ _ (TelegramBot "t")
           str_of_strings (photo_update (inr []) (Some "") (inr ()))
           {| photo := [ {| get_file :=
                              inr {| download_as_bytearray := inr [] |} |} ];
              caption := Some "";
              reply_text := λ _, inr () |}
           [] fresh_world); reflexivity.
Defined.

(** X15. After a successful run the handler replies once, with the amount, the
    platform and the date of the decoded object, each rendered by [str],
    and the note. A key the object lacks is shown as [N/A] in the reply,
    while the row appended for the same object holds the empty string. *)
Theorem handler_reply_on_success
    json_loads GeminiClient sheet b py_str update msg img w record tr' :
  message update = Some msg →
  download_image update = inr img →
  process_and_log_transaction json_loads GeminiClient sheet img
    (caption_or_default msg) (calls w) = (inr (record, true), tr') →
  ∃ d0 row text,
    record = PDict (<["Note" := PStr (caption_or_default msg)]> d0)
    ∧ tr' = (calls w ++ [generate_event img; AppendRow row])%list
    ∧ text = "Logged: " +:+ py_str (default (PStr "N/A") (d0 !! "Amount"))
             +:+ " on " +:+ py_str (default (PStr "N/A") (d0 !! "Platform"))
             +:+ " (" +:+ py_str (default (PStr "N/A") (d0 !! "Date"))
             +:+ "). Note: " +:+ caption_or_default msg
    ∧ handle_image json_loads GeminiClient sheet (Some b) py_str update w
      = (reply_text msg text,
         {| calls := tr'; replies := (replies w ++ [text])%list |})
    ∧ row !! 0%nat = Some (default (PStr "") (d0 !! "Amount"))
    ∧ row !! 2%nat = Some (default (PStr "") (d0 !! "Platform"))
    ∧ row !! 1%nat = Some (default (PStr "") (d0 !! "Date")).
Proof.
  intros Hmsg Hdl Hrun.
  destruct (process_success _ _ _ _ _ _ _ _ Hrun)
    as (client & sh & text & span & d0 & _ & _ & _ & _ & _ & -> & ->).
  eexists d0, _, _. split; [done |]. split; [done |]. split; [done |].
  split.
  - rewrite (handle_image_replies _ _ _ _ _ _ _ _ _ _ _ _ Hmsg Hdl Hrun)
      by apply insert_non_empty.
    cbn zeta. unfold dict_get. by rewrite !lookup_insert_ne.
  - by rewrite ledger_row_decoded.
Qed.

Lemma handler_reply_on_success_witness :
  ∃ d0 row text,
    PDict (<["Note" := PStr "Sent via Telegram"]> {["Amount" := PStr "10"]})
    = PDict (<["Note" := PStr "Sent via Telegram"]> d0)
    ∧ [generate_event [];
       AppendRow [ PStr "10"; PStr ""; PStr ""; PStr ""; PStr "";
                   PStr "Sent via Telegram"; PStr amount_only_text ]]
      = ([] ++ [generate_event []; AppendRow row])%list
    ∧ text = "Logged: "
             +:+ str_of_strings (default (PStr "N/A") (d0 !! "Amount"))
             +:+ " on "
             +:+ str_of_strings (default (PStr "N/A") (d0 !! "Platform"))
             +:+ " ("
             +:+ str_of_strings (default (PStr "N/A") (d0 !! "Date"))
             +:+ "). Note: " +:+ "Sent via Telegram"
    ∧ handle_image Json.loads
        (Some (client_answering (inr (Some amount_only_text))))
        (Some (sheet_answering (inr ()))) (Some (TelegramBot "t"))
        str_of_strings (photo_update (inr []) None (inr ())) fresh_world
      = (inr (),
         {| calls :=
              [generate_event [];
               AppendRow [ PStr "10"; PStr ""; PStr ""; PStr ""; PStr "";
                           PStr "Sent via Telegram"; PStr amount_only_text ]];
            replies := ([] ++ [text])%list |})
    ∧ row !! 0%nat = Some (default (PStr "") (d0 !! "Amount"))
    ∧ row !! 2%nat = Some (default (PStr "") (d0 !! "Platform"))
    ∧ row !! 1%nat = Some (default (PStr "") (d0 !! "Date")).
Proof.
  apply (handler_reply_on_success Json.loads
           (Some (client_answering (inr (Some amount_only_text))))
           (Some (sheet_answering (inr ()))) (TelegramBot "t") str_of_strings
           (photo_update (inr []) None (inr ()))
           {| photo := [ {| get_file :=
                              inr {| download_as_bytearray := inr [] |} |} ];
              caption := None;
              reply_text := λ _, inr () |}
           [] fresh_world); reflexivity.
Defined.

(** X16. After a failed run the handler replies once with the failure's text,
    the ["error"] entry of the payload rendered by [str]; the fallback
    [Unknown error] is never used. *)
Theorem handler_reply_on_failure
    json_loads GeminiClient sheet b py_str update msg img w payload tr' :
  message update = Some msg →
  download_image update = inr img →
  process_and_log_transaction json_loads GeminiClient sheet img
    (caption_or_default msg) (calls w) = (inr (payload, false), tr') →
  ∃ d kind,
    payload = PDict d ∧ d !! "error" = Some (PStr kind)
    ∧ handle_image json_loads GeminiClient sheet (Some b) py_str update w
      = (reply_text msg ("Error processing image: " +:+ py_str (PStr kind)),
         {| calls := tr';
            replies := (replies w
                        ++ ["Error processing image: "
                            +:+ py_str (PStr kind)])%list |}).
Proof.
  intros Hmsg Hdl Hrun.
  destruct (process_returns_dict json_loads GeminiClient sheet img
              (caption_or_default msg) (calls w))
    as (d & success & new & Hrun' & Hne & Hfail & _).
  rewrite Hrun in Hrun'. injection Hrun' as -> <- ->.
  destruct (Hfail eq_refl) as [kind Hkind].
  exists d, kind. split; [done |]. split; [done |].
  rewrite (handle_image_replies _ _ _ _ _ _ _ _ _ _ _ _ Hmsg Hdl Hrun Hne).
  cbn zeta. unfold dict_get. by rewrite Hkind.
Qed.

Lemma handler_reply_on_failure_witness :
  ∃ d kind,
    no_json_payload "no data" = PDict d ∧ d !! "error" = Some (PStr kind)
    ∧ handle_image Json.loads
        (Some (client_answering (inr (Some "no data"))))
        (Some (sheet_answering (inr ()))) (Some (TelegramBot "t"))
        str_of_strings (photo_update (inr []) (Some "tea") (inr ()))
        fresh_world
      = (inr (),
         {| calls := [generate_event []];
            replies := ([]
                        ++ ["Error processing image: "
                            +:+ str_of_strings (PStr kind)])%list |}).
Proof.
  apply (handler_reply_on_failure Json.loads
           (Some (client_answering (inr (Some "no data"))))
           (Some (sheet_answering (inr ()))) (TelegramBot "t") str_of_strings
           (photo_update (inr []) (Some "tea") (inr ()))
           {| photo := [ {| get_file :=
                              inr {| download_as_bytearray := inr [] |} |} ];
              caption := Some "tea";
              reply_text := λ _, inr () |}
           [] fresh_world); reflexivity.
Defined.

(** X17. For an update with a message the handler calls [reply_text] exactly
    once, whatever the bot, the photo, the services and the decoder do,
    and it raises only what that call raises. *)
Theorem handler_replies_exactly_once
    json_loads GeminiClient sheet bot py_str update msg w :
  message update = Some msg →
  ∃ text new,
    handle_image json_loads GeminiClient sheet bot py_str update w
    = (reply_text msg text,
       {| calls := (calls w ++ new)%list;
          replies := (replies w ++ [text])%list |}).
Proof.
  intros Hmsg. destruct bot as [b |].
  - destruct (download_image update) as [e | img] eqn:Hdl.
    + exists "Sorry, I couldn't download the image.", [].
      unfold handle_image, reply, message_attr.
      by rewrite Hdl, Hmsg, app_nil_r.
    + destruct (process_returns_dict json_loads GeminiClient sheet img
                  (caption_or_default msg) (calls w))
        as (d & success & new & Hrun & Hne & _ & _).
      rewrite (handle_image_replies _ _ _ _ _ _ _ _ _ _ _ _ Hmsg Hdl Hrun Hne).
      by eexists _, _.
  - exists "Telegram bot is currently unavailable.", [].
    unfold handle_image, reply, message_attr. by rewrite Hmsg, app_nil_r.
Qed.

Lemma handler_replies_exactly_once_witness :
  ∃ text new,
    handle_image Json.loads
      (Some (client_answering (inr (Some amount_only_text))))
      (Some (sheet_answering (inr ()))) (Some (TelegramBot "t"))
      str_of_strings
      (photo_update (inr []) None (inl (PyException "blocked by user")))
      fresh_world
    = (inl (PyException "blocked by user"),
       {| calls := (calls fresh_world ++ new)%list;
          replies := (replies fresh_world ++ [text])%list |}).
Proof.
  apply (handler_replies_exactly_once Json.loads
           (Some (client_answering (inr (Some amount_only_text))))
           (Some (sheet_answering (inr ()))) (Some (TelegramBot "t"))
           str_of_strings
           (photo_update (inr []) None (inl (PyException "blocked by user")))
           {| photo := [ {| get_file :=
                              inr {| download_as_bytearray := inr [] |} |} ];
              caption := None;
              reply_text := λ _, inl (PyException "blocked by user") |}
           fresh_world).
  reflexivity.
Defined.

(** ** The string operations *)

Lemma contains_append c s t :
  Py.contains c (s +:+ t) = Py.contains c s || Py.contains c t.
Proof.
  induction s as [|a s IH]; rewrite ?PyFacts.app_empty, ?PyFacts.app_String;
    cbn [Py.contains]; [done |].
  rewrite IH. by rewrite orb_assoc.
Qed.

Lemma lstrip_split s :
  ∃ ws, s = ws +:+ Py.lstrip s ∧ whitespace_only ws = true.
Proof.
  induction s as [|a s (ws & IH & Hws)]; cbn [Py.lstrip]; [by exists "" |].
  destruct (Py.isspace a) eqn:Ha; [| by exists ""].
  exists (String a ws). rewrite PyFacts.app_String, <- IH. split; [done |].
  cbn [whitespace_only]. by rewrite Ha, Hws.
Qed.

Lemma rstrip_split s :
  ∃ ws, s = Py.rstrip s +:+ ws ∧ whitespace_only ws = true.
Proof.
  induction s as [|a s (ws & IH & Hws)]; cbn [Py.rstrip]; [by exists "" |].
  destruct (Py.rstrip s) as [|b r] eqn:E.
  - destruct (Py.isspace a) eqn:Ha.
    + exists (String a ws). rewrite PyFacts.app_empty in *. split; [by f_equal |].
      cbn [whitespace_only]. by rewrite Ha, Hws.
    + exists ws. rewrite PyFacts.app_String. split; [by f_equal | done].
  - exists ws. rewrite PyFacts.app_String. split; [by f_equal | done].
Qed.

Lemma rstrip_idempotent s : Py.rstrip (Py.rstrip s) = Py.rstrip s.
Proof.
  induction s as [|a s IH]; cbn [Py.rstrip]; [done |].
  destruct (Py.rstrip s) as [|b r] eqn:E.
  - destruct (Py.isspace a) eqn:Ha; [done |]. cbn [Py.rstrip]. by rewrite Ha.
  - cbn [Py.rstrip] in *. rewrite IH. by destruct (Py.rstrip r).
Qed.

Lemma lstrip_rstrip_lstrip s :
  Py.lstrip (Py.rstrip (Py.lstrip s)) = Py.rstrip (Py.lstrip s).
Proof.
  induction s as [|a s IH]; cbn [Py.lstrip]; [done |].
  destruct (Py.isspace a) eqn:Ha; [done |]. cbn [Py.rstrip].
  destruct (Py.rstrip s); rewrite ?Ha; cbn [Py.lstrip]; by rewrite Ha.
Qed.

Lemma lstrip_head s c r : Py.lstrip s = String c r → Py.isspace c = false.
Proof.
  induction s as [|a s IH]; cbn [Py.lstrip]; [done |].
  destruct (Py.isspace a) eqn:Ha; [done |]. by intros [= <- _].
Qed.

Lemma rstrip_keeps_head a t :
  Py.isspace a = false → ∃ r, Py.rstrip (String a t) = String a r.
Proof.
  intros Ha. cbn [Py.rstrip]. destruct (Py.rstrip t); rewrite ?Ha; by eexists.
Qed.

Lemma rstrip_last s r c :
  Py.rstrip s = r +:+ String c "" → Py.isspace c = false.
Proof.
  revert r. induction s as [|a s IH]; intros r; cbn [Py.rstrip].
  - by destruct r.
  - destruct (Py.rstrip s) as [|b x] eqn:E.
    + destruct (Py.isspace a) eqn:Ha; [by destruct r |].
      destruct r as [|a' [|a'' r]]; rewrite ?PyFacts.app_empty,
        ?PyFacts.app_String; intros [=]; by subst.
    + destruct r as [|a' r]; rewrite ?PyFacts.app_empty, ?PyFacts.app_String.
      * intros [=].
      * intros [= <- Hx]. by apply (IH r).
Qed.

(** X18. [strip] removes whitespace and nothing else, at both ends and as
    far as it goes: the text is the stripped text between two runs of
    whitespace, and the stripped text neither starts nor ends with a
    whitespace character, so that it has nothing left to strip. *)
Theorem strip_removes_surrounding_whitespace s :
  (∃ ws1 ws2,
     s = ws1 +:+ Py.strip s +:+ ws2
     ∧ whitespace_only ws1 = true ∧ whitespace_only ws2 = true)
  ∧ (∀ c r, Py.strip s = String c r → Py.isspace c = false)
  ∧ (∀ r c, Py.strip s = r +:+ String c "" → Py.isspace c = false)
  ∧ Py.lstrip (Py.strip s) = Py.strip s
  ∧ Py.rstrip (Py.strip s) = Py.strip s.
Proof.
  unfold Py.strip. split; [| split; [| split; [| split]]].
  - destruct (lstrip_split s) as (ws1 & H1 & Hws1).
    destruct (rstrip_split (Py.lstrip s)) as (ws2 & H2 & Hws2).
    exists ws1, ws2. by rewrite <- H2, <- H1.
  - intros c r. destruct (Py.lstrip s) as [|a t] eqn:E; [done |].
    pose proof (lstrip_head s a t E) as Ha.
    destruct (rstrip_keeps_head a t Ha) as [r' ->]. by intros [= <- _].
  - intros r c. apply rstrip_last.
  - apply lstrip_rstrip_lstrip.
  - apply rstrip_idempotent.
Qed.

(** X19. [find] gives the index of the first occurrence of the character and
    [rfind] that of the last one; both give [-1] exactly when there is
    none. *)
Theorem find_first_rfind_last c s :
  (Py.contains c s = false ∧ Py.find c s = -1 ∧ Py.rfind c s = -1)
  ∨ (∃ pre r s' suf,
       s = pre +:+ String c r ∧ Py.contains c pre = false
       ∧ Py.find c s = Py.len pre
       ∧ s = s' +:+ String c suf ∧ Py.contains c suf = false
       ∧ Py.rfind c s = Py.len s'
       ∧ 0 ≤ Py.find c s ∧ Py.find c s ≤ Py.rfind c s
       ∧ Py.rfind c s < Py.len s).
Proof.
  destruct (Py.contains c s) eqn:E.
  - right.
    destruct (contains_first c s E) as (pre & r & E1 & Hpre).
    destruct (contains_last c s E) as (s' & suf & E2 & Hsuf).
    assert (Hf : Py.find c s = Py.len pre).
    { rewrite E1. unfold Py.find. rewrite PyFacts.find_from_app by done. lia. }
    assert (Hr : Py.rfind c s = Py.len s').
    { rewrite E2. unfold Py.rfind.
      rewrite PyFacts.rfind_from_app by (done || lia). lia. }
    exists pre, r, s', suf. repeat (split; [done |]).
    rewrite Hf, Hr. pose proof (PyFacts.len_nonneg pre).
    pose proof (PyFacts.len_nonneg suf).
    assert (Py.len s = Py.len s' + 1 + Py.len suf) as Hlen
      by (rewrite E2 at 1; rewrite PyFacts.len_app, PyFacts.len_String; lia).
    split; [lia |]. split; [| lia].
    destruct (Z.le_gt_cases (Py.len pre) (Py.len s')) as [| Hgt]; [done |].
    exfalso.
    assert (s' +:+ String c suf = pre +:+ String c r) as Heq by congruence.
    destruct (app_split s' c suf pre c r Heq Hgt) as (mid & -> & _).
    rewrite contains_append in Hpre. cbn [Py.contains] in Hpre.
    rewrite Ascii.eqb_refl in Hpre. cbn in Hpre.
    by rewrite orb_true_r in Hpre.
  - left. split; [done |].
    split; [by apply PyFacts.find_none_iff | by apply PyFacts.rfind_none_iff].
Qed.
